(** * SwipeShop: the swipe decision pipeline, the seller dashboard and the
      cart / saved-item views, embedded from the TypeScript sources.

    Layout of the embedding:
    - [Js]       : the few JavaScript string and number helpers the pages use;
    - [Card]     : [ProductCard.handleDragEnd];
    - [Listing]  : the deny-list / dedup filters of the feed and of the
                   seller dashboard, and the seller analytics;
    - [Gateway]  : the hosted tables the pages talk to (rows, the
                   UNIQUE(user_id, product_id) constraints of the schema,
                   row-level security), with request failures driven by an
                   oracle;
    - [Pages]    : the handlers of Swipe, Cart and SavedItems, written in a
                   small state monad over the browser-plus-backend world;
    - [Demo]     : a small shop on which the handlers are run;
    - [Dashboard], [SavedView] : what the seller dashboard charts and what
                   the saved-items page lists. *)

From Stdlib Require Import String Ascii List ZArith QArith Qabs Qround Bool Lia Lqa.
From stdpp Require Import base decidable list strings gmap sets pretty.

Local Open Scope string_scope.

(* ===================================================================== *)
(** ** JavaScript helpers *)
(* ===================================================================== *)

Module Js.

(** [String.prototype.toLowerCase], on ASCII text: the letters A-Z move to
    a-z, every other character is kept. *)
Definition toLowerCase_char (c : ascii) : ascii :=
  let n := nat_of_ascii c in
  if (65 <=? n)%nat && (n <=? 90)%nat then ascii_of_nat (n + 32) else c.

Fixpoint toLowerCase (s : string) : string :=
  match s with
  | EmptyString => EmptyString
  | String c r => String (toLowerCase_char c) (toLowerCase r)
  end.

(** White space as [String.prototype.trim] sees it, within ASCII:
    TAB, LF, VT, FF, CR and SPACE. *)
Definition isWhiteSpace (c : ascii) : bool :=
  let n := nat_of_ascii c in
  ((9 <=? n)%nat && (n <=? 13)%nat) || (n =? 32)%nat.

Fixpoint trimStart (s : string) : string :=
  match s with
  | EmptyString => EmptyString
  | String c r => if isWhiteSpace c then trimStart r else s
  end.

Fixpoint rev_append (s acc : string) : string :=
  match s with
  | EmptyString => acc
  | String c r => rev_append r (String c acc)
  end.

Definition reverse (s : string) : string := rev_append s EmptyString.

Definition trimEnd (s : string) : string := reverse (trimStart (reverse s)).

Definition trim (s : string) : string := trimEnd (trimStart s).

(** [a || b] on strings: the empty string is the only falsy string. *)
Definition or_else (a b : string) : string :=
  if String.eqb a "" then b else a.

(** [Array.prototype.includes] on an array of strings. *)
Definition includes (xs : list string) (x : string) : bool :=
  existsb (String.eqb x) xs.

End Js.

(* ===================================================================== *)
(** ** ProductCard *)
(* ===================================================================== *)

Inductive Direction : Type := SwipeLeft | SwipeRight.

#[global] Instance Direction_eq_dec : EqDecision Direction.
Proof. solve_decision. Defined.

(** The string the direction is written as in the source ("left" | "right"),
    which is also the [action] stored with an interaction. *)
Definition direction_text (d : Direction) : string :=
  match d with SwipeLeft => "left" | SwipeRight => "right" end.

Module Card.

(** [info.offset.x] is a JavaScript number; displacements are taken as
    rationals. *)
Definition gt (a b : Q) : bool := negb (Qle_bool a b).

(** ProductCard.tsx, [handleDragEnd]: the result is the argument of the call
    to [onSwipe], [None] when [onSwipe] is not called. *)
Definition handleDragEnd (offset_x : Q) : option Direction :=
  if gt (Qabs offset_x) 100
  then Some (if gt offset_x 0 then SwipeRight else SwipeLeft)
  else None.

(** The direction a release at [d] commits to when it commits: right when
    [d > 0], left otherwise. *)
Definition release_direction (d : Q) : Direction :=
  if Qlt_le_dec 0 d then SwipeRight else SwipeLeft.

End Card.

(* ===================================================================== *)
(** ** Product listings and seller analytics *)
(* ===================================================================== *)

(** A row of [products], with the columns the pages read. *)
Record Product : Type := mkProduct {
  product_id : string;
  product_seller : string;
  product_name : string;
  product_price : Q
}.

Module Listing.

(** The deny-list both [fetchProducts] bodies build. *)
Definition removedNames : list string :=
  map Js.toLowerCase
    ["yes"; "hr"; "slim jean"; "ripped jeans"; "knit sweater"; "trechn coart";
     "classic white shirt"; "wireless headphones"].

(** [(p.name || "").trim().toLowerCase()] *)
Definition name_key (p : Product) : string :=
  Js.toLowerCase (Js.trim (Js.or_else (product_name p) "")).

(** The second [filter] of both pages: a [Set] of the keys seen so far, the
    first product of each key is kept. *)
Fixpoint dedupe (seen : gset string) (ps : list Product) : list Product :=
  match ps with
  | [] => []
  | p :: rest =>
      let key := name_key p in
      if bool_decide (key ∈ seen) then dedupe seen rest
      else p :: dedupe ({[ key ]} ∪ seen) rest
  end.

(** The shopper feed (Swipe page, [fetchProducts]): the deny-list is matched
    against the trimmed, lower-cased name. *)
Definition feed_denied (p : Product) : bool :=
  Js.includes removedNames (name_key p).

Definition feed_filter (data : list Product) : list Product :=
  dedupe ∅ (List.filter (fun p => negb (feed_denied p)) data).

(** The seller dashboard (Seller.tsx, [fetchProducts]): the deny-list is
    matched against [p.name?.toLowerCase() || ""], with no [trim]. *)
Definition seller_denied (p : Product) : bool :=
  Js.includes removedNames (Js.or_else (Js.toLowerCase (product_name p)) "").

Definition seller_filter (data : list Product) : list Product :=
  dedupe ∅ (List.filter (fun p => negb (seller_denied p)) data).

(** One fetched row of
    [swipe_interactions.select("action, products!inner(id, price, seller_id)")]. *)
Record SwipeRow : Type := mkSwipeRow {
  row_action : string;
  row_product_price : Q
}.

Record Analytics : Type := mkAnalytics {
  totalViews : nat;
  totalSwipesRight : nat;
  totalSwipesLeft : nat;
  totalPurchases : option nat;
  totalRevenue : option Q
}.

(** [useState<Analytics>({ totalViews: 0, totalSwipesRight: 0, totalSwipesLeft: 0 })] *)
Definition initialAnalytics : Analytics := mkAnalytics 0 0 0 None None.

Definition with_action (a : string) (data : list SwipeRow) : list SwipeRow :=
  List.filter (fun s => String.eqb (row_action s) a) data.

(** Seller.tsx, [fetchAnalytics]: [data] is [None] when the query returned
    no data, and then the state is left as it was. *)
Definition fetchAnalytics (data : option (list SwipeRow)) (prev : Analytics)
  : Analytics :=
  match data with
  | None => prev
  | Some rows =>
      let purchases := with_action "purchased" rows in
      let revenue :=
        fold_left (fun sum s => (sum + row_product_price s)%Q) purchases 0%Q in
      {| totalViews := length rows;
         totalSwipesRight := length (with_action "right" rows);
         totalSwipesLeft := length (with_action "left" rows);
         totalPurchases := Some (length purchases);
         totalRevenue := Some revenue |}
  end.

(** [x.toFixed(1)] for [x >= 0]: [tenths x] is the integer [n] with [n / 10]
    nearest to [x] (the larger one on a tie), printed with one digit after
    the point.  Numbers are exact rationals here; the source computes the
    quotient in double precision, where a quotient that sits exactly on a
    tie may be printed as either neighbour. *)
Definition tenths (x : Q) : Z := Qfloor (x * 10 + (1 # 2))%Q.

Definition show_tenths (n : Z) : string :=
  pretty.pretty (n / 10)%Z ++ "." ++ pretty.pretty (n mod 10)%Z.

Definition toFixed1 (x : Q) : string := show_tenths (tenths x).

Definition ratio (a : Analytics) : Q :=
  (inject_Z (Z.of_nat (totalSwipesRight a)) / inject_Z (Z.of_nat (totalViews a))
   * 100)%Q.

(** Seller.tsx, [conversionRate]. *)
Definition conversionRate (a : Analytics) : string :=
  if (0 <? totalViews a)%nat then toFixed1 (ratio a) else "0".

(** A catalogue entry with a deny-listed name followed by a blank. *)
Definition padded_ripped_jeans : Product :=
  mkProduct "p1" "seller-a" "Ripped Jeans " 40.

End Listing.

(* ===================================================================== *)
(** ** The persistence gateway *)
(* ===================================================================== *)

Module Gateway.

(** Rows of [cart_items], [saved_items] and [swipe_interactions] (schema
    migrations).  The [id uuid DEFAULT gen_random_uuid()] column is a number
    drawn from a counter of the store. *)
Record CartRow : Type := mkCartRow {
  cart_row_id : nat;
  cart_user : string;
  cart_product : string;
  cart_quantity : Z
}.

Record SavedRow : Type := mkSavedRow {
  saved_row_id : nat;
  saved_user : string;
  saved_product : string
}.

Record Interaction : Type := mkInteraction {
  interaction_user : string;
  interaction_product : string;
  interaction_action : string
}.

Record Tables : Type := mkTables {
  products_table : list Product;        (* oldest first *)
  cart_items : list CartRow;
  saved_items : list SavedRow;
  swipe_interactions : list Interaction;
  next_id : nat
}.

(** The query builders the pages use, one constructor per shape. *)
Inductive Request : Type :=
| SelectProducts                                   (* select("*").order("created_at", desc) *)
| SelectProductsIn (ids : list string)             (* select("*").in("id", ids) *)
| InsertInteraction (user product action : string)
| SelectCartId (user product : string)             (* select("id").eq.eq.limit(1) *)
| InsertCart (user product : string) (quantity : Z)
| UpsertCart (user product : string) (quantity : Z)
| DeleteCartOfUser (user : string)
| SelectSaved                                      (* select("*").order("created_at", desc) *)
| DeleteSavedPair (user product : string)
| InsertSaved (user product : string)
| UpsertSaved (user product : string)
| DeleteSavedById (id : nat).

Inductive Data : Type :=
| Null
| Ids (ids : list nat)
| SavedRows (rows : list SavedRow)
| ProductRows (rows : list Product).

(** The [{ data, error }] object a request resolves to. *)
Record Response : Type := mkResponse {
  data : Data;
  error : bool
}.

Definition accepted : Response := mkResponse Null false.
Definition rejected : Response := mkResponse Null true.

(** [auth.uid() = user_id] of the row-level policies. *)
Definition owns (auth : option string) (user : string) : bool :=
  match auth with
  | Some uid => String.eqb uid user
  | None => false
  end.

Definition cart_pair (user product : string) (r : CartRow) : bool :=
  String.eqb (cart_user r) user && String.eqb (cart_product r) product.

Definition saved_pair (user product : string) (r : SavedRow) : bool :=
  String.eqb (saved_user r) user && String.eqb (saved_product r) product.

Definition cart_rows_of (user product : string) (t : Tables) : list CartRow :=
  List.filter (cart_pair user product) (cart_items t).

Definition saved_rows_of (user product : string) (t : Tables) : list SavedRow :=
  List.filter (saved_pair user product) (saved_items t).

Definition set_cart (t : Tables) (rows : list CartRow) (n : nat) : Tables :=
  mkTables (products_table t) rows (saved_items t) (swipe_interactions t) n.

Definition set_saved (t : Tables) (rows : list SavedRow) (n : nat) : Tables :=
  mkTables (products_table t) (cart_items t) rows (swipe_interactions t) n.

Definition add_interaction (t : Tables) (i : Interaction) : Tables :=
  mkTables (products_table t) (cart_items t) (saved_items t)
           (swipe_interactions t ++ [i]) (next_id t).

Section Execute.

(** Whether an [upsert] resolves a clash on UNIQUE(user_id, product_id) by
    updating the row ([true]) or reports it as an error ([false]).  The
    pages pass no [onConflict] option, the choice is the client library's. *)
Variable merge : bool.

(** What the store does with a request that reaches it, for the signed-in
    user [auth]: the row-level policies ([auth.uid() = user_id]) and the
    UNIQUE(user_id, product_id) constraints of the migrations are applied
    here. *)
Definition execute (auth : option string) (r : Request) (t : Tables)
  : Response * Tables :=
  match r with
  | SelectProducts =>
      (mkResponse (ProductRows (rev (products_table t))) false, t)
  | SelectProductsIn ids =>
      (mkResponse
         (ProductRows
            (List.filter (fun p => Js.includes ids (product_id p))
                         (products_table t))) false, t)
  | InsertInteraction user product action =>
      if owns auth user
      then (accepted, add_interaction t (mkInteraction user product action))
      else (rejected, t)
  | SelectCartId user product =>
      let rows :=
        List.filter (fun r => owns auth (cart_user r)) (cart_rows_of user product t) in
      (mkResponse (Ids (take 1 (map cart_row_id rows))) false, t)
  | InsertCart user product quantity =>
      if owns auth user then
        match cart_rows_of user product t with
        | [] => (accepted,
                 set_cart t
                   (cart_items t ++ [mkCartRow (next_id t) user product quantity])
                   (S (next_id t)))
        | _ :: _ => (rejected, t)
        end
      else (rejected, t)
  | UpsertCart user product quantity =>
      if owns auth user then
        match cart_rows_of user product t with
        | [] => (accepted,
                 set_cart t
                   (cart_items t ++ [mkCartRow (next_id t) user product quantity])
                   (S (next_id t)))
        | _ :: _ =>
            if merge
            then (accepted,
                  set_cart t
                    (map (fun r => if cart_pair user product r
                                   then mkCartRow (cart_row_id r) user product quantity
                                   else r)
                         (cart_items t))
                    (next_id t))
            else (rejected, t)
        end
      else (rejected, t)
  | DeleteCartOfUser user =>
      (accepted,
       set_cart t
         (List.filter
            (fun r => negb (String.eqb (cart_user r) user && owns auth (cart_user r)))
            (cart_items t))
         (next_id t))
  | SelectSaved =>
      (mkResponse
         (SavedRows (rev (List.filter (fun r => owns auth (saved_user r))
                                      (saved_items t)))) false, t)
  | DeleteSavedPair user product =>
      (accepted,
       set_saved t
         (List.filter
            (fun r => negb (saved_pair user product r && owns auth (saved_user r)))
            (saved_items t))
         (next_id t))
  | InsertSaved user product =>
      if owns auth user then
        match saved_rows_of user product t with
        | [] => (accepted,
                 set_saved t
                   (saved_items t ++ [mkSavedRow (next_id t) user product])
                   (S (next_id t)))
        | _ :: _ => (rejected, t)
        end
      else (rejected, t)
  | UpsertSaved user product =>
      if owns auth user then
        match saved_rows_of user product t with
        | [] => (accepted,
                 set_saved t
                   (saved_items t ++ [mkSavedRow (next_id t) user product])
                   (S (next_id t)))
        | _ :: _ => if merge then (accepted, t) else (rejected, t)
        end
      else (rejected, t)
  | DeleteSavedById id =>
      (accepted,
       set_saved t
         (List.filter
            (fun r => negb (Nat.eqb (saved_row_id r) id && owns auth (saved_user r)))
            (saved_items t))
         (next_id t))
  end.

End Execute.

(** UNIQUE(user_id, product_id) on both tables. *)
Definition cart_unique (t : Tables) : Prop :=
  forall user product, (length (cart_rows_of user product t) <= 1)%nat.

Definition saved_unique (t : Tables) : Prop :=
  forall user product, (length (saved_rows_of user product t) <= 1)%nat.

End Gateway.

(* ===================================================================== *)
(** ** The pages *)
(* ===================================================================== *)

Module Pages.

Import Gateway.

(** What a handler does that can be observed from outside, in order. *)
Inductive Event : Type :=
| Marked (productId : string)          (* setSwipedProducts(prev => ...add(id)) *)
| Requested (r : Request)
| Toast (title : string)
| Warn (message : string)
| Navigate (path : string).

(** A line of the Cart page's [cartItems]; [line_product] is [products.id]
    of the joined product. *)
Record CartItem : Type := mkCartItem {
  line_id : nat;
  line_quantity : Z;
  line_product : string
}.

(** The store, the component state of the pages, the failures the next
    requests will meet, and the events so far.  An entry [true] of [oracle]
    says that the next request is not carried out and resolves to an error,
    for any reason the store below does not decide itself: the network, a
    foreign key, the CHECK on [action].  Past the end of the list requests
    go through. *)
Record World : Type := mkWorld {
  tables : Tables;
  session : option string;               (* session.user.id *)
  products : list Product;               (* Swipe *)
  swipedProducts : gset string;          (* Swipe *)
  cartItems : list CartItem;             (* Cart *)
  savedItems : list SavedRow;            (* SavedItems *)
  oracle : list bool;
  events : list Event
}.

Definition M (A : Type) : Type := World -> A * World.

Definition ret {A} (a : A) : M A := fun w => (a, w).

Definition bind {A B} (m : M A) (k : A -> M B) : M B :=
  fun w => let (a, w') := m w in k a w'.

Notation "x <- m ;; k" := (bind m (fun x => k))
  (at level 100, m at next level, right associativity).
Notation "m ;;; k" := (bind m (fun _ => k))
  (at level 100, right associativity).

Definition run {A} (m : M A) (w : World) : World := snd (m w).

Definition emit (e : Event) : M unit := fun w =>
  (tt, mkWorld (tables w) (session w) (products w) (swipedProducts w)
               (cartItems w) (savedItems w) (oracle w) (events w ++ [e])).

Definition toast (title : string) : M unit := emit (Toast title).
Definition warn (message : string) : M unit := emit (Warn message).
Definition navigate (path : string) : M unit := emit (Navigate path).

Definition getSession : M (option string) := fun w => (session w, w).

Definition setProducts (ps : list Product) : M unit := fun w =>
  (tt, mkWorld (tables w) (session w) ps (swipedProducts w)
               (cartItems w) (savedItems w) (oracle w) (events w)).

Definition setCartItems (items : list CartItem) : M unit := fun w =>
  (tt, mkWorld (tables w) (session w) (products w) (swipedProducts w)
               items (savedItems w) (oracle w) (events w)).

Definition setSavedItems (items : list SavedRow) : M unit := fun w =>
  (tt, mkWorld (tables w) (session w) (products w) (swipedProducts w)
               (cartItems w) items (oracle w) (events w)).

(** [setSwipedProducts(prev => new Set(prev).add(productId))] *)
Definition markSwiped (productId : string) : M unit := fun w =>
  (tt, mkWorld (tables w) (session w) (products w)
               ({[ productId ]} ∪ swipedProducts w)
               (cartItems w) (savedItems w) (oracle w)
               (events w ++ [Marked productId])).

Section Handlers.

Variable merge : bool.

(** A request that fails on the way resolves to an error and leaves the
    tables alone; otherwise the store carries it out. *)
Definition attempt (fails : bool) (auth : option string) (r : Request)
    (t : Tables) : Response * Tables :=
  if fails then (rejected, t) else execute merge auth r t.

(** What the next request resolves to and the tables it leaves: the head of
    the oracle decides whether it fails on the way. *)
Definition outcome (r : Request) (w : World) : Response * Tables :=
  attempt (hd false (oracle w)) (session w) r (tables w).

(** [await supabase.from(...)...]: the request is recorded and resolved, one
    entry of the oracle is used up. *)
Definition request (r : Request) : M Response := fun w =>
  (fst (outcome r w),
   mkWorld (snd (outcome r w)) (session w) (products w) (swipedProducts w)
           (cartItems w) (savedItems w) (tl (oracle w))
           (events w ++ [Requested r])).

(** [!existing || existing.length === 0] *)
Definition no_rows (d : Data) : bool :=
  match d with
  | Null => true
  | Ids ids => Nat.eqb (length ids) 0
  | SavedRows rows => Nat.eqb (length rows) 0
  | ProductRows rows => Nat.eqb (length rows) 0
  end.

(** Swipe page, [fetchProducts]. *)
Definition fetchProducts : M unit :=
  res <- request SelectProducts ;;
  if error res
  then toast "Error loading products"
  else setProducts
         (Listing.feed_filter
            (match data res with ProductRows rows => rows | _ => [] end)).

(** Swipe page, [handleSwipe]. *)
Definition handleSwipe (productId : string) (direction : Direction) : M unit :=
  s <- getSession ;;
  match s with
  | None => ret tt
  | Some user =>
      markSwiped productId ;;;
      request (InsertInteraction user productId (direction_text direction)) ;;;
      match direction with
      | SwipeRight =>
          existing <- request (SelectCartId user productId) ;;
          err <- (if no_rows (data existing)
                  then res <- request (InsertCart user productId 1) ;;
                       ret (error res)
                  else ret false) ;;
          if (err : bool)
          then toast "Error adding to cart"
          else toast "Added to cart! 🛒"
      | SwipeLeft =>
          request (DeleteSavedPair user productId) ;;;
          res <- request (InsertSaved user productId) ;;
          if error res
          then toast "Error saving item"
          else toast "Saved for later 💜"
      end
  end.

(** The earlier Swipe page ([Swipe.tsx]): both writes are upserts. *)
Definition handleSwipe_upsert (productId : string) (direction : Direction)
  : M unit :=
  s <- getSession ;;
  match s with
  | None => ret tt
  | Some user =>
      markSwiped productId ;;;
      request (InsertInteraction user productId (direction_text direction)) ;;;
      match direction with
      | SwipeRight =>
          res <- request (UpsertCart user productId 1) ;;
          if error res
          then toast "Error adding to cart"
          else toast "Added to cart! 🛒"
      | SwipeLeft =>
          res <- request (UpsertSaved user productId) ;;
          if error res
          then toast "Error saving item"
          else toast "Saved for later 💜"
      end
  end.

(** [products.filter(p => !swipedProducts.has(p.id))] *)
Definition visibleProducts (ps : list Product) (swiped : gset string)
  : list Product :=
  List.filter (fun p => negb (bool_decide (product_id p ∈ swiped))) ps.

(** Swipe page, [handleKeyPress]; ArrowDown and ArrowUp only scroll the
    container and any other key is ignored. *)
Definition handleKeyPress (key : string) : M unit := fun w =>
  match visibleProducts (products w) (swipedProducts w) with
  | [] => (tt, w)
  | firstProduct :: _ =>
      if String.eqb key "ArrowLeft"
      then handleSwipe (product_id firstProduct) SwipeLeft w
      else if String.eqb key "ArrowRight"
      then handleSwipe (product_id firstProduct) SwipeRight w
      else (tt, w)
  end.

(** A card of the feed released at displacement [offset_x]:
    [ProductCard.handleDragEnd] with [onSwipe = handleSwipe]. *)
Definition onDragEnd (productId : string) (offset_x : Q) : M unit :=
  match Card.handleDragEnd offset_x with
  | Some direction => handleSwipe productId direction
  | None => ret tt
  end.

(** [for (const item of cartItems) { ... }] of [checkout]. *)
Fixpoint recordPurchases (user : string) (items : list CartItem) : M unit :=
  match items with
  | [] => ret tt
  | item :: rest =>
      res <- request (InsertInteraction user (line_product item) "purchased") ;;
      (if error res then warn "purchase insert failed" else ret tt) ;;;
      recordPurchases user rest
  end.

(** Cart page, [checkout].  The requests resolve to [{ data, error }] and do
    not throw, so the [catch] branch is never entered. *)
Definition checkout : M unit := fun w =>
  match session w, cartItems w with
  | None, _ => (tt, w)
  | Some _, [] => (tt, w)
  | Some user, items =>
      (recordPurchases user items ;;;
       clear <- request (DeleteCartOfUser user) ;;
       (if error clear then warn "clear cart failed" else ret tt) ;;;
       toast "Checkout complete! 🎉" ;;;
       setCartItems [] ;;;
       navigate "/swipe") w
  end.

(** SavedItems page, [fetchSavedItems]; the product details fetched for
    display do not change the rows listed. *)
Definition fetchSavedItems : M unit :=
  res <- request SelectSaved ;;
  if error res
  then toast "Error loading saved items"
  else
    match data res with
    | SavedRows (r :: rows) =>
        request (SelectProductsIn (map saved_product (r :: rows))) ;;;
        setSavedItems (r :: rows)
    | _ => setSavedItems []
    end.

(** SavedItems page, [handleRemove].  The page starts [fetchSavedItems]
    without awaiting it; its requests are placed where they are started. *)
Definition handleRemove (savedItemId : nat) : M unit :=
  res <- request (DeleteSavedById savedItemId) ;;
  if error res
  then toast "Error removing item"
  else (toast "Item removed" ;;; fetchSavedItems).

(** SavedItems page, [handleMoveToCart]. *)
Definition handleMoveToCart (productId : string) (savedItemId : nat) : M unit :=
  s <- getSession ;;
  match s with
  | None => ret tt
  | Some user =>
      res <- request (UpsertCart user productId 1) ;;
      if error res
      then toast "Error adding to cart"
      else (handleRemove savedItemId ;;; toast "Moved to cart! 🛒")
  end.

(** What the shopper can do on the Swipe page. *)
Inductive Gesture : Type :=
| Release (productId : string) (offset_x : Q)     (* end of a drag on a card *)
| KeyDown (key : string)
| Reload.                                          (* the feed is fetched again *)

Definition perform (g : Gesture) : M unit :=
  match g with
  | Release productId offset_x => onDragEnd productId offset_x
  | KeyDown key => handleKeyPress key
  | Reload => fetchProducts
  end.

Fixpoint performAll (gs : list Gesture) (w : World) : World :=
  match gs with
  | [] => w
  | g :: rest => performAll rest (run (perform g) w)
  end.

End Handlers.

(** The requests among a list of events, in order. *)
Fixpoint requests (es : list Event) : list Request :=
  match es with
  | [] => []
  | Requested r :: rest => r :: requests rest
  | _ :: rest => requests rest
  end.

(** The ids of the cards on offer. *)
Definition offered (w : World) : list string :=
  map product_id (visibleProducts (products w) (swipedProducts w)).

(** The number of rows a user has in [cart_items]. *)
Definition cart_count (user : string) (t : Tables) : nat :=
  length (List.filter (fun r => String.eqb (cart_user r) user) (cart_items t)).

(** The purchase records a checkout leaves behind: one per cart line whose
    insert did not fail, [o] being the oracle at the start of the loop. *)
Fixpoint purchasesRecorded (user : string) (items : list CartItem)
    (o : list bool) : list Interaction :=
  match items with
  | [] => []
  | item :: rest =>
      (if hd false o then []
       else [mkInteraction user (line_product item) "purchased"])
      ++ purchasesRecorded user rest (tl o)
  end.

End Pages.

(* ===================================================================== *)
(** ** A small shop to run the handlers on *)
(* ===================================================================== *)

Module Demo.

Import Gateway Pages.

Definition shirt : Product := mkProduct "shirt" "seller-a" "Linen Shirt" 30.
Definition mug : Product := mkProduct "mug" "seller-a" "Mug" 8.

(** Ann has three shirts in her cart and a mug saved for later. *)
Definition store : Tables :=
  mkTables [shirt; mug]
           [mkCartRow 0 "ann" "shirt" 3]
           [mkSavedRow 1 "ann" "mug"]
           []
           2.

(** Ann signed in, nothing swiped yet, with the failures [o] ahead. *)
Definition world (o : list bool) : World :=
  mkWorld store (Some "ann") [mug; shirt] ∅
          [mkCartItem 0 3 "shirt"] [mkSavedRow 1 "ann" "mug"] o [].

(** Bob has a shirt and a mug in his cart, and the Cart page shows both. *)
Definition checkout_world (o : list bool) : World :=
  mkWorld (mkTables [shirt; mug]
                    [mkCartRow 0 "ann" "shirt" 3; mkCartRow 1 "bob" "shirt" 1;
                     mkCartRow 2 "bob" "mug" 2]
                    [] [] 3)
          (Some "bob") [] ∅
          [mkCartItem 1 1 "shirt"; mkCartItem 2 2 "mug"] [] o [].

End Demo.

(* ===================================================================== *)
(** ** What the seller dashboard and the saved-items page display *)
(* ===================================================================== *)

Module Dashboard.

Import Listing.

(** An entry of [chartData]. *)
Record Slice : Type := mkSlice {
  slice_name : string;
  slice_value : Z;
  slice_color : string
}.

(** [Math.max(0, totalViews - totalSwipesRight - totalSwipesLeft)] *)
Definition skipped (a : Analytics) : Z :=
  Z.max 0 (Z.of_nat (totalViews a) - Z.of_nat (totalSwipesRight a)
           - Z.of_nat (totalSwipesLeft a)).

(** Seller.tsx, [chartData]: the three slices, those of value 0 left out. *)
Definition chartData (a : Analytics) : list Slice :=
  List.filter (fun item => (0 <? slice_value item)%Z)
    [mkSlice "Added to Cart" (Z.of_nat (totalSwipesRight a)) "#10b981";
     mkSlice "Saved for Later" (Z.of_nat (totalSwipesLeft a)) "#a855f7";
     mkSlice "Skipped" (skipped a) "#6b7280"].

End Dashboard.

Module SavedView.

Import Gateway.

(** An entry of the SavedItems page's [savedItems]: the saved row's id and
    the product shown for it. *)
Record SavedItem : Type := mkSavedItem {
  item_id : nat;
  item_product : Product
}.

(** The stand-in for a product that was not fetched:
    [{ id: item.product_id, name: "Unknown", description: "", price: 0,
       image_url: "" }]. *)
Definition unknownProduct (productId : string) : Product :=
  mkProduct productId "" "Unknown" 0.

(** SavedItems.tsx, [fetchSavedItems], the [itemsWithProducts] it builds:
    [products?.find(p => p.id === item.product_id) || { ... }], [products]
    being [None] when the second query returned no data. *)
Definition itemsWithProducts (data : list SavedRow)
    (products : option (list Product)) : list SavedItem :=
  map (fun item =>
         mkSavedItem (saved_row_id item)
           (match products with
            | Some ps =>
                match List.find
                        (fun p => String.eqb (product_id p) (saved_product item))
                        ps with
                | Some p => p
                | None => unknownProduct (saved_product item)
                end
            | None => unknownProduct (saved_product item)
            end))
      data.

End SavedView.

(* ===================================================================== *)
(** ** Properties of the card and of the listings *)
(* ===================================================================== *)

Section CardFacts.

Import Card.

Lemma gt_true (a b : Q) : gt a b = true <-> (b < a)%Q.
Proof.
  unfold gt. rewrite negb_true_iff.
  split.
  - intros H. apply Qnot_le_lt. intros Hle.
    apply Qle_bool_iff in Hle. congruence.
  - intros H. destruct (Qle_bool a b) eqn:E; [|reflexivity].
    apply Qle_bool_iff in E. exfalso. eapply Qlt_not_le; eassumption.
Qed.

Lemma gt_false (a b : Q) : gt a b = false <-> (a <= b)%Q.
Proof.
  unfold gt. rewrite negb_false_iff. apply Qle_bool_iff.
Qed.

Lemma handleDragEnd_commit (d : Q) :
  (100 < Qabs d)%Q -> handleDragEnd d = Some (release_direction d).
Proof.
  intros H. unfold handleDragEnd, release_direction.
  apply gt_true in H. rewrite H.
  destruct (Qlt_le_dec 0 d) as [Hd|Hd].
  - apply gt_true in Hd. now rewrite Hd.
  - apply gt_false in Hd. now rewrite Hd.
Qed.

Lemma handleDragEnd_reset (d : Q) :
  (Qabs d <= 100)%Q -> handleDragEnd d = None.
Proof.
  intros H. unfold handleDragEnd. apply gt_false in H. now rewrite H.
Qed.

End CardFacts.

(** C1. A release at horizontal displacement [d] calls [onSwipe] exactly when
    [|d| > 100], with direction right when [d > 0] and left otherwise; when
    [|d| <= 100] there is no call, and on the Swipe page the release changes
    nothing: no decision is recorded and no event happens. *)
Theorem drag_release_commits_iff_beyond_threshold (d : Q) :
  (forall dir,
      Card.handleDragEnd d = Some dir <->
      (100 < Qabs d)%Q /\ dir = Card.release_direction d) /\
  ((Qabs d <= 100)%Q ->
      Card.handleDragEnd d = None /\
      forall merge productId w,
        Pages.onDragEnd merge productId d w = (tt, w)) /\
  ((100 < Qabs d)%Q ->
      forall merge productId,
        Pages.onDragEnd merge productId d =
        Pages.handleSwipe merge productId (Card.release_direction d)).
Proof.
  split; [|split].
  - intros dir. split.
    + intros H.
      destruct (Qlt_le_dec 100 (Qabs d)) as [Hlt|Hle].
      * split; [exact Hlt|].
        rewrite (handleDragEnd_commit d Hlt) in H. congruence.
      * rewrite (handleDragEnd_reset d Hle) in H. discriminate.
    + intros [Hlt ->]. now apply handleDragEnd_commit.
  - intros Hle. split; [now apply handleDragEnd_reset|].
    intros merge productId w. unfold Pages.onDragEnd.
    now rewrite (handleDragEnd_reset d Hle).
  - intros Hlt merge productId. unfold Pages.onDragEnd.
    now rewrite (handleDragEnd_commit d Hlt).
Qed.

Lemma drag_release_commits_iff_beyond_threshold_witness :
  Card.handleDragEnd (-150) = Some SwipeLeft /\
  Pages.onDragEnd false "mug" 60 (Demo.world []) = (tt, Demo.world []).
Proof.
  split.
  - apply (proj1 (drag_release_commits_iff_beyond_threshold (-150))).
    split; reflexivity.
  - apply (proj1 (proj2 (drag_release_commits_iff_beyond_threshold 60))).
    unfold Qle. cbn. lia.
Defined.

Section ListingFacts.

Import Listing.

Lemma or_else_empty (s : string) : Js.or_else s "" = s.
Proof.
  unfold Js.or_else. destruct (String.eqb s "") eqn:E; [|reflexivity].
  apply String.eqb_eq in E. now subst.
Qed.

Lemma toLowerCase_empty (s : string) : Js.toLowerCase s = "" -> s = "".
Proof. destruct s; simpl; congruence. Qed.

(** On a product whose name carries no outer white space the two deny-list
    tests are the same test. *)
Lemma denied_agree_trimmed (p : Product) :
  Js.trim (product_name p) = product_name p ->
  seller_denied p = feed_denied p.
Proof.
  intros H. unfold seller_denied, feed_denied, name_key.
  now rewrite !or_else_empty, H.
Qed.

Lemma filter_ext_in_bool {A} (f g : A -> bool) (l : list A) :
  (forall x, In x l -> f x = g x) -> List.filter f l = List.filter g l.
Proof.
  induction l as [|a l IH]; simpl; intros H; [reflexivity|].
  rewrite (H a) by now left.
  rewrite IH by (intros x Hx; apply H; now right). reflexivity.
Qed.

(** The two filters agree on catalogues whose names are already trimmed. *)
Lemma filters_agree_on_trimmed (data : list Product) :
  (forall p, In p data -> Js.trim (product_name p) = product_name p) ->
  seller_filter data = feed_filter data.
Proof.
  intros H. unfold seller_filter, feed_filter. f_equal.
  apply filter_ext_in_bool. intros p Hp.
  now rewrite (denied_agree_trimmed p (H p Hp)).
Qed.

End ListingFacts.

(** C6. The two filters are not the same function: a product named
    "Ripped Jeans " (a trailing blank) is dropped by the shopper feed, whose
    deny-list test trims the name, and kept by the seller dashboard, whose
    test does not. *)
Theorem seller_filter_differs_from_feed_filter :
  Listing.feed_filter [Listing.padded_ripped_jeans] = [] /\
  Listing.seller_filter [Listing.padded_ripped_jeans] =
  [Listing.padded_ripped_jeans].
Proof. split; vm_compute; reflexivity. Qed.

Section AnalyticsFacts.

Import Listing.

(** [tenths x] is an integer within one half of [10 x]. *)
Lemma tenths_nearest (x : Q) :
  (Qabs (x * 10 - inject_Z (tenths x)) <= 1 # 2)%Q.
Proof.
  unfold tenths.
  pose proof (Qfloor_le (x * 10 + (1 # 2))) as Hlo.
  pose proof (Qlt_floor (x * 10 + (1 # 2))) as Hhi.
  rewrite inject_Z_plus in Hhi. change (inject_Z 1) with 1%Q in Hhi.
  apply Qabs_Qle_condition. split; lra.
Qed.

Lemma fetchAnalytics_counts (rows : list SwipeRow) (prev : Analytics) :
  totalViews (fetchAnalytics (Some rows) prev) = length rows /\
  totalSwipesRight (fetchAnalytics (Some rows) prev) =
    length (with_action "right" rows).
Proof. split; reflexivity. Qed.

End AnalyticsFacts.

(** C7. [conversionRate] is "0" when [totalViews] is 0.  After
    [fetchAnalytics], [totalViews] is the number of all fetched records,
    whatever their action (a [purchased] record adds one view and no right
    swipe), [totalSwipesRight] the number of records with action "right",
    and for a non-empty fetch [conversionRate] is the decimal with one digit
    after the point, [t / 10], that lies within 0.05 of
    [totalSwipesRight / totalViews * 100]. *)
Theorem conversionRate_rounds_right_over_views :
  (forall a, Listing.totalViews a = 0%nat -> Listing.conversionRate a = "0") /\
  (forall rows prev,
      let a := Listing.fetchAnalytics (Some rows) prev in
      Listing.totalViews a = length rows /\
      Listing.totalSwipesRight a =
        length (List.filter (fun s => String.eqb (Listing.row_action s) "right") rows) /\
      (forall price,
          let a' := Listing.fetchAnalytics
                      (Some (Listing.mkSwipeRow "purchased" price :: rows)) prev in
          Listing.totalViews a' = S (Listing.totalViews a) /\
          Listing.totalSwipesRight a' = Listing.totalSwipesRight a) /\
      (rows <> [] ->
          exists t : Z,
            Listing.conversionRate a = Listing.show_tenths t /\
            (Qabs ((inject_Z (Z.of_nat (Listing.totalSwipesRight a))
                    / inject_Z (Z.of_nat (Listing.totalViews a)) * 100) * 10
                   - inject_Z t) <= 1 # 2)%Q)).
Proof.
  split.
  - intros a H. unfold Listing.conversionRate. now rewrite H.
  - intros rows prev a. split; [reflexivity|]. split; [reflexivity|]. split.
    + intros price a'. split; reflexivity.
    + intros Hne. exists (Listing.tenths (Listing.ratio a)). split.
      * unfold Listing.conversionRate.
        destruct rows as [|r rows]; [congruence|]. reflexivity.
      * apply (tenths_nearest (Listing.ratio a)).
Qed.

Lemma conversionRate_rounds_right_over_views_witness :
  exists t : Z,
    Listing.conversionRate
      (Listing.fetchAnalytics
         (Some [Listing.mkSwipeRow "right" 10; Listing.mkSwipeRow "purchased" 10;
                Listing.mkSwipeRow "left" 25]) Listing.initialAnalytics)
    = Listing.show_tenths t /\
    (Qabs ((inject_Z 1 / inject_Z 3 * 100) * 10 - inject_Z t) <= 1 # 2)%Q.
Proof.
  apply (proj2 (proj2 (proj2
           (proj2 conversionRate_rounds_right_over_views
              [Listing.mkSwipeRow "right" 10; Listing.mkSwipeRow "purchased" 10;
               Listing.mkSwipeRow "left" 25] Listing.initialAnalytics)))).
  discriminate.
Defined.

(** The scenario of the dashboard: three rights and one left give four views
    and a rate of 75.0. *)
Example conversionRate_three_of_four :
  Listing.conversionRate
    (Listing.fetchAnalytics
       (Some [Listing.mkSwipeRow "right" 10; Listing.mkSwipeRow "right" 10;
              Listing.mkSwipeRow "left" 25; Listing.mkSwipeRow "right" 25])
       Listing.initialAnalytics) = "75.0".
Proof. vm_compute. reflexivity. Qed.

(* ===================================================================== *)
(** ** Properties of the gateway *)
(* ===================================================================== *)

Import Gateway Pages.

Local Open Scope list_scope.

Ltac run_handler :=
  unfold run, handleSwipe, handleSwipe_upsert, handleMoveToCart, handleRemove,
    fetchSavedItems, fetchProducts, bind, getSession, markSwiped, request, ret,
    toast, warn, navigate, emit, setSavedItems, setCartItems, setProducts;
  cbn -[attempt].

Ltac open_outcome :=
  unfold outcome;
  cbn [oracle tables session products swipedProducts cartItems savedItems
       events fst snd tl hd].

Ltac split_ifs :=
  repeat match goal with
         | |- context [if ?c then _ else _] => destruct c eqn:?; cbn -[attempt]
         end.

Section GatewayFacts.

Variable merge : bool.

Lemma owns_self (u : string) : owns (Some u) u = true.
Proof. simpl. apply String.eqb_refl. Qed.

Lemma cart_pair_self n u p q : cart_pair u p (mkCartRow n u p q) = true.
Proof. unfold cart_pair. cbn. now rewrite !String.eqb_refl. Qed.

Lemma saved_pair_self n u p : saved_pair u p (mkSavedRow n u p) = true.
Proof. unfold saved_pair. cbn. now rewrite !String.eqb_refl. Qed.

Lemma cart_pair_user u p r : cart_pair u p r = true -> cart_user r = u.
Proof.
  unfold cart_pair. intros H. apply andb_true_iff in H as [H _].
  now apply String.eqb_eq in H.
Qed.

Lemma saved_pair_owned u p r :
  saved_pair u p r = true -> owns (Some u) (saved_user r) = true.
Proof.
  unfold saved_pair. intros H. apply andb_true_iff in H as [H _].
  apply String.eqb_eq in H. rewrite H. apply owns_self.
Qed.

(** Recording an interaction touches neither the cart nor the saved items. *)
Lemma attempt_interaction f auth u p a t :
  exists l,
    snd (attempt merge f auth (InsertInteraction u p a) t) =
    mkTables (products_table t) (cart_items t) (saved_items t) l (next_id t).
Proof.
  unfold attempt. destruct f; cbn.
  - exists (swipe_interactions t). now destruct t.
  - destruct (owns auth u); cbn.
    + eexists. reflexivity.
    + exists (swipe_interactions t). now destruct t.
Qed.

(** The signed-in user's own interaction is appended when the request goes
    through and not otherwise. *)
Lemma attempt_interaction_log f u p a t :
  swipe_interactions (snd (attempt merge f (Some u) (InsertInteraction u p a) t)) =
  swipe_interactions t ++ (if f then [] else [mkInteraction u p a]).
Proof.
  unfold attempt. destruct f; cbn -[owns].
  - now rewrite app_nil_r.
  - now rewrite owns_self.
Qed.

(** No other request writes to [swipe_interactions]. *)
Lemma attempt_keeps_log f auth r t :
  (forall u p a, r <> InsertInteraction u p a) ->
  swipe_interactions (snd (attempt merge f auth r t)) = swipe_interactions t.
Proof.
  intros Hr. unfold attempt. destruct f; [reflexivity|].
  destruct r; cbn -[owns cart_rows_of saved_rows_of]; try reflexivity.
  - exfalso. eapply Hr. reflexivity.
  - destruct (owns auth user); [|reflexivity].
    destruct (cart_rows_of user product t); reflexivity.
  - destruct (owns auth user); [|reflexivity].
    destruct (cart_rows_of user product t); [reflexivity|].
    destruct merge; reflexivity.
  - destruct (owns auth user); [|reflexivity].
    destruct (saved_rows_of user product t); reflexivity.
  - destruct (owns auth user); [|reflexivity].
    destruct (saved_rows_of user product t); [reflexivity|].
    destruct merge; reflexivity.
Qed.

Lemma cart_rows_owned user p t :
  List.filter (fun r => owns (Some user) (cart_user r)) (cart_rows_of user p t)
  = cart_rows_of user p t.
Proof.
  unfold cart_rows_of. induction (cart_items t) as [|r l IH]; [reflexivity|].
  cbn [List.filter]. destruct (cart_pair user p r) eqn:E; [|exact IH].
  cbn [List.filter]. rewrite (cart_pair_user _ _ _ E), owns_self.
  now rewrite IH.
Qed.

(** The pre-check of the right swipe: it changes nothing, reports no row when
    there is none, and reports a row when there is one and the request goes
    through. *)
Lemma attempt_select_cart f user p t :
  snd (attempt merge f (Some user) (SelectCartId user p) t) = t /\
  (cart_rows_of user p t = [] ->
   no_rows (data (fst (attempt merge f (Some user) (SelectCartId user p) t)))
   = true) /\
  (cart_rows_of user p t <> [] -> f = false ->
   no_rows (data (fst (attempt merge f (Some user) (SelectCartId user p) t)))
   = false).
Proof.
  unfold attempt.
  destruct f; cbn -[cart_rows_of take owns]; rewrite ?cart_rows_owned.
  - repeat split; intros; congruence.
  - repeat split.
    + intros ->. reflexivity.
    + intros H _. destruct (cart_rows_of user p t); [congruence|reflexivity].
Qed.

(** UNIQUE(user_id, product_id) turns a second insert down. *)
Lemma attempt_insert_cart_existing f user p q t :
  cart_rows_of user p t <> [] ->
  attempt merge f (Some user) (InsertCart user p q) t = (rejected, t).
Proof.
  intros H. unfold attempt. destruct f; [reflexivity|].
  cbn -[cart_rows_of owns]. rewrite owns_self.
  destruct (cart_rows_of user p t); [congruence|reflexivity].
Qed.

Lemma attempt_insert_cart_fresh user p q t :
  cart_rows_of user p t = [] ->
  attempt merge false (Some user) (InsertCart user p q) t =
  (accepted,
   set_cart t (cart_items t ++ [mkCartRow (next_id t) user p q]) (S (next_id t))).
Proof.
  intros H. unfold attempt. cbn -[cart_rows_of owns]. now rewrite owns_self, H.
Qed.

Lemma saved_rows_after_delete u p (l : list SavedRow) :
  List.filter (saved_pair u p)
    (List.filter
       (fun r => negb (saved_pair u p r && owns (Some u) (saved_user r))) l)
  = [].
Proof.
  induction l as [|r l IH]; [reflexivity|]. cbn [List.filter].
  destruct (saved_pair u p r) eqn:E.
  - rewrite (saved_pair_owned _ _ _ E). exact IH.
  - cbn [andb negb List.filter]. now rewrite E.
Qed.

(** The rows of the pair after [delete().eq(user).eq(product)]: none when the
    request is carried out, the rows as they were when it fails. *)
Lemma attempt_delete_saved f user p t :
  let t' := snd (attempt merge f (Some user) (DeleteSavedPair user p) t) in
  next_id t' = next_id t /\
  saved_rows_of user p t' = (if f then saved_rows_of user p t else []).
Proof.
  unfold attempt. destruct f; cbn -[owns saved_pair]; [split; reflexivity|].
  split; [reflexivity|]. unfold saved_rows_of. cbn -[owns saved_pair].
  apply saved_rows_after_delete.
Qed.

(** The rows of the pair after an [insert] that is carried out: the new row
    when there was none, the old rows when the constraint turns it down. *)
Lemma attempt_insert_saved user p t :
  saved_rows_of user p
    (snd (attempt merge false (Some user) (InsertSaved user p) t)) =
  match saved_rows_of user p t with
  | [] => [mkSavedRow (next_id t) user p]
  | rows => rows
  end.
Proof.
  unfold attempt. cbn -[owns saved_rows_of]. rewrite owns_self.
  destruct (saved_rows_of user p t) eqn:E; [|exact E].
  unfold saved_rows_of in *. cbn [snd saved_items set_saved].
  rewrite List.filter_app, E. cbn [List.filter app].
  now rewrite saved_pair_self.
Qed.

End GatewayFacts.

(* ===================================================================== *)
(** ** Properties of the handlers *)
(* ===================================================================== *)

Section HandlerFacts.

Variable merge : bool.

Lemma handleSwipe_signed_out p dir w :
  session w = None -> handleSwipe merge p dir w = (tt, w).
Proof. intros H. unfold handleSwipe, bind, getSession. now rewrite H. Qed.

(** The tables after a right swipe, request by request. *)
Lemma handleSwipe_right_tables w user p :
  session w = Some user ->
  tables (run (handleSwipe merge p SwipeRight) w) =
    let o := oracle w in
    let t1 := snd (attempt merge (nth 0 o false) (Some user)
                     (InsertInteraction user p "right") (tables w)) in
    let r2 := attempt merge (nth 1 o false) (Some user)
                (SelectCartId user p) t1 in
    if no_rows (data (fst r2))
    then snd (attempt merge (nth 2 o false) (Some user)
                (InsertCart user p 1) (snd r2))
    else snd r2.
Proof.
  intros Hs. run_handler. rewrite Hs. cbn -[attempt]. open_outcome. rewrite Hs.
  destruct (oracle w) as [|f0 [|f1 [|f2 o]]]; cbn -[attempt]; split_ifs;
    reflexivity.
Qed.

(** The tables after a left swipe, request by request. *)
Lemma handleSwipe_left_tables w user p :
  session w = Some user ->
  tables (run (handleSwipe merge p SwipeLeft) w) =
    let o := oracle w in
    let t1 := snd (attempt merge (nth 0 o false) (Some user)
                     (InsertInteraction user p "left") (tables w)) in
    let t2 := snd (attempt merge (nth 1 o false) (Some user)
                     (DeleteSavedPair user p) t1) in
    snd (attempt merge (nth 2 o false) (Some user) (InsertSaved user p) t2).
Proof.
  intros Hs. run_handler. rewrite Hs. cbn -[attempt]. open_outcome. rewrite Hs.
  destruct (oracle w) as [|f0 [|f1 [|f2 o]]]; cbn -[attempt]; split_ifs;
    reflexivity.
Qed.

(** What a left swipe does, in order. *)
Lemma handleSwipe_left_events w user p :
  session w = Some user ->
  exists shown,
    events (run (handleSwipe merge p SwipeLeft) w) =
    events w ++ [Marked p; Requested (InsertInteraction user p "left");
                 Requested (DeleteSavedPair user p);
                 Requested (InsertSaved user p); Toast shown].
Proof.
  intros Hs. run_handler. rewrite Hs. cbn -[attempt].
  split_ifs; rewrite <- !app_assoc; cbn [app]; eexists; reflexivity.
Qed.

(** What a right swipe does, in order: the insert into the cart is only
    requested when the pre-check reported no row. *)
Lemma handleSwipe_right_events w user p :
  session w = Some user ->
  exists (write : list Event) shown,
    events (run (handleSwipe merge p SwipeRight) w) =
    events w ++ [Marked p; Requested (InsertInteraction user p "right");
                 Requested (SelectCartId user p)] ++ write ++ [Toast shown] /\
    (write = [] \/ write = [Requested (InsertCart user p 1)]).
Proof.
  intros Hs. run_handler. rewrite Hs. cbn -[attempt].
  split_ifs; rewrite <- !app_assoc; cbn [app].
  all: first
    [ exists [], "Error adding to cart"; split; [reflexivity|now left]
    | exists [], "Added to cart! 🛒"; split; [reflexivity|now left]
    | exists [Requested (InsertCart user p 1)], "Error adding to cart";
      split; [reflexivity|now right]
    | exists [Requested (InsertCart user p 1)], "Added to cart! 🛒";
      split; [reflexivity|now right] ].
Qed.

Lemma handleSwipe_swiped p dir w :
  swipedProducts (run (handleSwipe merge p dir) w) =
  match session w with
  | Some _ => {[ p ]} ∪ swipedProducts w
  | None => swipedProducts w
  end.
Proof.
  run_handler. destruct (session w); [|reflexivity].
  destruct dir; cbn -[attempt]; split_ifs; reflexivity.
Qed.

Lemma handleSwipe_products p dir w :
  products (run (handleSwipe merge p dir) w) = products w.
Proof.
  run_handler. destruct (session w); [|reflexivity].
  destruct dir; cbn -[attempt]; split_ifs; reflexivity.
Qed.

(** The interaction log after a swipe: the record of this decision is added
    when its insert goes through, whatever happens to the later requests. *)
Lemma handleSwipe_log w user p dir :
  session w = Some user ->
  swipe_interactions (tables (run (handleSwipe merge p dir) w)) =
  swipe_interactions (tables w) ++
  (if nth 0 (oracle w) false then []
   else [mkInteraction user p (direction_text dir)]).
Proof.
  intros Hs. destruct dir.
  - rewrite (handleSwipe_left_tables w user p Hs). cbn zeta.
    rewrite !attempt_keeps_log by (intros; discriminate).
    apply attempt_interaction_log.
  - rewrite (handleSwipe_right_tables w user p Hs). cbn zeta.
    destruct (no_rows _);
      rewrite !attempt_keeps_log by (intros; discriminate);
      apply attempt_interaction_log.
Qed.

(** The feed is the fetched list without the swiped ids. *)
Lemma offered_iff (w : World) (q : string) :
  In q (offered w) <->
  In q (map product_id (products w)) /\ q ∉ swipedProducts w.
Proof.
  unfold offered, visibleProducts. rewrite !in_map_iff. split.
  - intros (x & Hx & Hin). apply filter_In in Hin as [Hin Hv].
    apply negb_true_iff, bool_decide_eq_false in Hv. subst q.
    split; [now exists x|exact Hv].
  - intros [(x & Hx & Hin) Hq]. exists x. split; [exact Hx|].
    apply filter_In. split; [exact Hin|].
    apply negb_true_iff, bool_decide_eq_false. now subst q.
Qed.

Lemma swiped_not_offered (w : World) (q : string) :
  q ∈ swipedProducts w -> ~ In q (offered w).
Proof. intros Hq Hin. apply offered_iff in Hin as [_ Hn]. now apply Hn. Qed.

(** No gesture takes an id out of the swiped set. *)
Lemma perform_keeps_swiped (g : Gesture) (w : World) :
  swipedProducts w ⊆ swipedProducts (run (perform merge g) w).
Proof.
  destruct g as [productId d|key|]; cbn [perform].
  - unfold onDragEnd. destruct (Card.handleDragEnd d) as [dir|].
    + rewrite handleSwipe_swiped. destruct (session w); set_solver.
    + reflexivity.
  - unfold run, handleKeyPress.
    destruct (visibleProducts (products w) (swipedProducts w)) as [|x xs];
      [reflexivity|].
    destruct (String.eqb key "ArrowLeft").
    + fold (run (handleSwipe merge (product_id x) SwipeLeft) w).
      rewrite handleSwipe_swiped. destruct (session w); set_solver.
    + destruct (String.eqb key "ArrowRight"); [|reflexivity].
      fold (run (handleSwipe merge (product_id x) SwipeRight) w).
      rewrite handleSwipe_swiped. destruct (session w); set_solver.
  - run_handler. split_ifs; reflexivity.
Qed.

Lemma performAll_keeps_swiped (gs : list Gesture) (w : World) :
  swipedProducts w ⊆ swipedProducts (performAll merge gs w).
Proof.
  revert w. induction gs as [|g gs IH]; intros w; cbn [performAll].
  - reflexivity.
  - etransitivity; [apply (perform_keeps_swiped g)|apply IH].
Qed.

End HandlerFacts.

(* ===================================================================== *)
(** ** The decision recorder *)
(* ===================================================================== *)

(** C2. A right swipe on a pair that already has a cart row leaves
    [cart_items] exactly as it was, whatever requests fail: no second row,
    no change of quantity.  On a pair without a row, when the insert is
    carried out, one row with quantity 1 is added and it is the pair's only
    row. *)
Theorem right_swipe_is_idempotent merge w user p :
  session w = Some user ->
  let w' := run (handleSwipe merge p SwipeRight) w in
  (cart_rows_of user p (tables w) <> [] ->
     cart_items (tables w') = cart_items (tables w)) /\
  (cart_rows_of user p (tables w) = [] ->
   nth 2 (oracle w) false = false ->
     cart_items (tables w') =
       cart_items (tables w) ++ [mkCartRow (next_id (tables w)) user p 1] /\
     cart_rows_of user p (tables w') =
       [mkCartRow (next_id (tables w)) user p 1]).
Proof.
  intros Hs w'. subst w'. rewrite (handleSwipe_right_tables merge w user p Hs).
  cbn zeta.
  destruct (attempt_interaction merge (nth 0 (oracle w) false) (Some user)
              user p "right" (tables w)) as [l Ht1].
  set (t1 := snd (attempt merge _ _ (InsertInteraction _ _ _) _)) in *.
  assert (Hrows : cart_rows_of user p t1 = cart_rows_of user p (tables w))
    by (now rewrite Ht1).
  destruct (attempt_select_cart merge (nth 1 (oracle w) false) user p t1)
    as (Hsel & Hnone & Hsome).
  rewrite Hsel. split.
  - intros Hex. rewrite <- Hrows in Hex.
    destruct (no_rows _).
    + rewrite (attempt_insert_cart_existing merge _ user p 1 t1 Hex). cbn.
      now rewrite Ht1.
    + now rewrite Ht1.
  - intros Hno Hok. rewrite <- Hrows in Hno. rewrite (Hnone Hno), Hok.
    rewrite (attempt_insert_cart_fresh merge user p 1 t1 Hno). cbn [snd].
    unfold cart_rows_of in *. cbn [cart_items set_cart].
    rewrite List.filter_app, Hno. rewrite Ht1.
    cbn [cart_items next_id List.filter app]. rewrite cart_pair_self.
    split; reflexivity.
Qed.

Lemma right_swipe_is_idempotent_witness :
  cart_items
    (tables (run (handleSwipe false "shirt" SwipeRight) (Demo.world [false; true])))
  = [mkCartRow 0 "ann" "shirt" 3] /\
  cart_rows_of "ann" "mug"
    (tables (run (handleSwipe false "mug" SwipeRight) (Demo.world [])))
  = [mkCartRow 2 "ann" "mug" 1].
Proof.
  split.
  - apply (proj1 (right_swipe_is_idempotent false (Demo.world [false; true])
                    "ann" "shirt" eq_refl)).
    vm_compute. discriminate.
  - apply (proj2 (right_swipe_is_idempotent false (Demo.world [])
                    "ann" "mug" eq_refl)); reflexivity.
Defined.

(** C3. A left swipe asks for the pair's saved rows to be deleted and then
    for a new row to be inserted, in this order.  The pair has at most one
    row beforehand (UNIQUE(user_id, product_id)); when the insert request is
    carried out the pair has exactly one row afterwards, on a first swipe as
    on a repeated one, and when the delete was carried out too this row is
    the new one. *)
Theorem left_swipe_leaves_one_saved_row merge w user p :
  session w = Some user ->
  (length (saved_rows_of user p (tables w)) <= 1)%nat ->
  nth 2 (oracle w) false = false ->
  let w' := run (handleSwipe merge p SwipeLeft) w in
  (exists shown,
     events w' =
     events w ++ [Marked p; Requested (InsertInteraction user p "left");
                  Requested (DeleteSavedPair user p);
                  Requested (InsertSaved user p); Toast shown]) /\
  length (saved_rows_of user p (tables w')) = 1%nat /\
  (nth 1 (oracle w) false = false ->
     saved_rows_of user p (tables w') = [mkSavedRow (next_id (tables w)) user p]).
Proof.
  intros Hs Hu Hok w'. subst w'.
  split; [exact (handleSwipe_left_events merge w user p Hs)|].
  rewrite (handleSwipe_left_tables merge w user p Hs). cbn zeta. rewrite Hok.
  destruct (attempt_interaction merge (nth 0 (oracle w) false) (Some user)
              user p "left" (tables w)) as [l Ht1].
  set (t1 := snd (attempt merge _ _ (InsertInteraction _ _ _) _)) in *.
  destruct (attempt_delete_saved merge (nth 1 (oracle w) false) user p t1)
    as [Hid Hdel].
  set (t2 := snd (attempt merge _ _ (DeleteSavedPair _ _) _)) in *.
  rewrite attempt_insert_saved, Hdel, Hid.
  assert (H1 : saved_rows_of user p t1 = saved_rows_of user p (tables w))
    by now rewrite Ht1.
  assert (H2 : next_id t1 = next_id (tables w)) by now rewrite Ht1.
  destruct (nth 1 (oracle w) false).
  - rewrite H1. split; [|discriminate].
    destruct (saved_rows_of user p (tables w)) as [|r [|r' rows]];
      cbn in *; try reflexivity; lia.
  - rewrite H2. split; reflexivity.
Qed.

Lemma left_swipe_leaves_one_saved_row_witness :
  length
    (saved_rows_of "ann" "mug"
       (tables (run (handleSwipe false "mug" SwipeLeft)
                    (run (handleSwipe false "mug" SwipeLeft) (Demo.world [])))))
  = 1%nat.
Proof.
  refine (proj1 (proj2 (left_swipe_leaves_one_saved_row false
            (run (handleSwipe false "mug" SwipeLeft) (Demo.world []))
            "ann" "mug" eq_refl _ eq_refl))).
  vm_compute. lia.
Defined.

(** A left swipe whose insert fails after its delete went through leaves the
    pair without a saved row. *)
Example left_swipe_failed_insert_loses_row :
  saved_rows_of "ann" "mug"
    (tables (run (handleSwipe false "mug" SwipeLeft)
                 (Demo.world [false; false; true]))) = [].
Proof. vm_compute. reflexivity. Qed.

(** C4. A swipe decision first asks for the interaction record, with the
    direction as its action, and only then for the cart or saved-item
    requests.  The log afterwards is the log before plus this record when
    the record's insert went through, whatever happened to the later
    requests, and the card is not on offer any more. *)
Theorem interaction_is_recorded_before_the_write merge w user p dir :
  session w = Some user ->
  let w' := run (handleSwipe merge p dir) w in
  (exists later,
     events w' =
     events w ++ Marked p
       :: Requested (InsertInteraction user p (direction_text dir)) :: later /\
     match dir with
     | SwipeLeft =>
         requests later = [DeleteSavedPair user p; InsertSaved user p]
     | SwipeRight =>
         requests later = [SelectCartId user p] \/
         requests later = [SelectCartId user p; InsertCart user p 1]
     end) /\
  swipe_interactions (tables w') =
    swipe_interactions (tables w) ++
    (if nth 0 (oracle w) false then []
     else [mkInteraction user p (direction_text dir)]) /\
  ~ In p (offered w').
Proof.
  intros Hs w'. subst w'. split; [|split].
  - destruct dir.
    + destruct (handleSwipe_left_events merge w user p Hs) as [shown ->].
      eexists. split; reflexivity.
    + destruct (handleSwipe_right_events merge w user p Hs)
        as (write & shown & -> & [-> | ->]);
        eexists; (split; [reflexivity|]); cbn; auto.
  - apply handleSwipe_log, Hs.
  - apply swiped_not_offered. rewrite handleSwipe_swiped, Hs. set_solver.
Qed.

Lemma interaction_is_recorded_before_the_write_witness :
  swipe_interactions
    (tables (run (handleSwipe false "mug" SwipeLeft)
                 (Demo.world [false; true; true])))
  = [mkInteraction "ann" "mug" "left"].
Proof.
  exact (proj1 (proj2 (interaction_is_recorded_before_the_write false
           (Demo.world [false; true; true]) "ann" "mug" SwipeLeft eq_refl))).
Defined.

(** C9. On a swipe decision the product id enters the swiped set before any
    request is made.  The cards on offer are the fetched products whose id is
    not in the swiped set, so the card leaves the feed at once and no later
    gesture brings it back, whichever requests fail. *)
Theorem swiped_card_is_never_offered_again merge w user p dir :
  session w = Some user ->
  let w' := run (handleSwipe merge p dir) w in
  (exists later, events w' = events w ++ Marked p :: later) /\
  swipedProducts w' = {[ p ]} ∪ swipedProducts w /\
  (forall q, In q (offered w') <->
             In q (map product_id (products w')) /\ q ∉ swipedProducts w') /\
  (forall q, In q (offered w') <-> In q (offered w) /\ q <> p) /\
  (forall gs, ~ In p (offered (performAll merge gs w'))).
Proof.
  intros Hs w'.
  assert (Hsw : swipedProducts w' = {[ p ]} ∪ swipedProducts w)
    by (subst w'; now rewrite handleSwipe_swiped, Hs).
  split; [|split; [exact Hsw|split; [|split]]].
  - subst w'. destruct dir.
    + destruct (handleSwipe_left_events merge w user p Hs) as [shown ->].
      eexists. reflexivity.
    + destruct (handleSwipe_right_events merge w user p Hs)
        as (write & shown & -> & _).
      eexists. reflexivity.
  - intros q. apply offered_iff.
  - intros q. rewrite !offered_iff, Hsw.
    subst w'. rewrite handleSwipe_products.
    rewrite not_elem_of_union, not_elem_of_singleton. tauto.
  - intros gs. apply swiped_not_offered.
    apply (performAll_keeps_swiped merge gs w'). rewrite Hsw.
    apply elem_of_union_l, elem_of_singleton. reflexivity.
Qed.

Lemma swiped_card_is_never_offered_again_witness :
  ~ In "mug"
      (offered
         (performAll false [KeyDown "ArrowRight"; Reload; KeyDown "ArrowLeft"]
            (run (handleSwipe false "mug" SwipeRight)
                 (Demo.world [true; true; true])))).
Proof.
  exact (proj2 (proj2 (proj2 (proj2
           (swiped_card_is_never_offered_again false
              (Demo.world [true; true; true]) "ann" "mug" SwipeRight eq_refl))))
           [KeyDown "ArrowRight"; Reload; KeyDown "ArrowLeft"]).
Defined.

Section KeyFacts.

Lemma far_right_commits (d : Q) :
  (100 < d)%Q ->
  Card.handleDragEnd d = Some SwipeRight.
Proof.
  intros H.
  assert (Habs : (100 < Qabs d)%Q)
    by (eapply Qlt_le_trans; [exact H|apply Qle_Qabs]).
  rewrite (handleDragEnd_commit d Habs). unfold Card.release_direction.
  destruct (Qlt_le_dec 0 d); [reflexivity|lra].
Qed.

Lemma far_left_commits (d : Q) :
  (d < -100)%Q ->
  Card.handleDragEnd d = Some SwipeLeft.
Proof.
  intros H.
  assert (Habs : (100 < Qabs d)%Q).
  { rewrite <- Qabs_opp. eapply Qlt_le_trans; [|apply Qle_Qabs]. lra. }
  rewrite (handleDragEnd_commit d Habs). unfold Card.release_direction.
  destruct (Qlt_le_dec 0 d); [lra|reflexivity].
Qed.

End KeyFacts.

(** C10. With no card on offer a key press does nothing.  Otherwise
    ArrowLeft runs [handleSwipe] with a left decision on the first card on
    offer and ArrowRight with a right decision, which is what releasing that
    card beyond the threshold on the same side runs. *)
Theorem arrow_keys_decide_on_the_first_card merge w :
  (visibleProducts (products w) (swipedProducts w) = [] ->
     forall key, handleKeyPress merge key w = (tt, w)) /\
  (forall first rest,
     visibleProducts (products w) (swipedProducts w) = first :: rest ->
     handleKeyPress merge "ArrowLeft" w =
       handleSwipe merge (product_id first) SwipeLeft w /\
     handleKeyPress merge "ArrowRight" w =
       handleSwipe merge (product_id first) SwipeRight w /\
     (forall d, (d < -100)%Q ->
        handleKeyPress merge "ArrowLeft" w =
          onDragEnd merge (product_id first) d w) /\
     (forall d, (100 < d)%Q ->
        handleKeyPress merge "ArrowRight" w =
          onDragEnd merge (product_id first) d w)).
Proof.
  split.
  - intros H key. unfold handleKeyPress. now rewrite H.
  - intros first rest H. unfold handleKeyPress, onDragEnd. rewrite H. cbn.
    repeat split.
    + intros d Hd. now rewrite (far_left_commits d Hd).
    + intros d Hd. now rewrite (far_right_commits d Hd).
Qed.

Lemma arrow_keys_decide_on_the_first_card_witness :
  handleKeyPress false "ArrowLeft" (Demo.world []) =
  onDragEnd false "mug" (-150) (Demo.world []).
Proof.
  refine (proj1 (proj2 (proj2 (proj2 (arrow_keys_decide_on_the_first_card false
            (Demo.world [])) Demo.mug [Demo.shirt] eq_refl))) (-150)%Q _).
  reflexivity.
Defined.

(* ===================================================================== *)
(** ** Checkout *)
(* ===================================================================== *)

Section CheckoutFacts.

Variable merge : bool.

Lemma run_bind {A B} (m : M A) (k : A -> M B) (w : World) :
  run (bind m k) w = run (k (fst (m w))) (snd (m w)).
Proof. unfold run, bind. destruct (m w); reflexivity. Qed.

Lemma hd_drop (n : nat) (o : list bool) : hd false (drop n o) = nth n o false.
Proof.
  revert o. induction n as [|n IH]; intros [|f o]; cbn; try reflexivity.
  apply IH.
Qed.

Lemma drop_tl (n : nat) (o : list bool) : drop n (tl o) = drop (S n) o.
Proof. destruct o; cbn; [now rewrite drop_nil|reflexivity]. Qed.

(** The world after the loop that records the purchases: one request per
    cart line whatever the earlier ones resolved to, the records of the
    inserts that went through added to the log, the cart untouched. *)
Lemma recordPurchases_spec user items :
  forall w, session w = Some user ->
    let w' := run (recordPurchases merge user items) w in
    session w' = session w /\
    cartItems w' = cartItems w /\
    oracle w' = drop (length items) (oracle w) /\
    cart_items (tables w') = cart_items (tables w) /\
    swipe_interactions (tables w') =
      swipe_interactions (tables w) ++ purchasesRecorded user items (oracle w) /\
    exists new,
      events w' = events w ++ new /\
      requests new =
        map (fun item => InsertInteraction user (line_product item) "purchased")
            items.
Proof.
  induction items as [|item rest IH]; intros w Hs; cbn zeta.
  - cbn. rewrite !app_nil_r. repeat split. exists []. now rewrite app_nil_r.
  - cbn [recordPurchases]. rewrite run_bind, run_bind.
    set (r := InsertInteraction user (line_product item) "purchased").
    set (w1 := snd (request merge r w)).
    set (w2 := snd ((if error (fst (request merge r w))
                     then warn "purchase insert failed" else ret tt) w1)).
    assert (Hw2 : session w2 = session w /\ cartItems w2 = cartItems w /\
                  oracle w2 = tl (oracle w) /\
                  tables w2 = snd (outcome merge r w) /\
                  exists note, events w2 = events w ++ Requested r :: note /\
                               requests note = []).
    { subst w2 w1. destruct (error _); cbn; repeat split.
      - exists [Warn "purchase insert failed"].
        rewrite <- app_assoc. split; reflexivity.
      - exists []. split; reflexivity. }
    destruct Hw2 as (Hs2 & Hc2 & Ho2 & Ht2 & note & He2 & Hn2).
    destruct (IH w2 (eq_trans Hs2 Hs)) as (Is & Ic & Io & It & Il & new & Ie & Ir).
    rewrite Is, Ic, Io, It, Il, Ie, Hs2, Hc2, Ho2, Ht2, He2.
    unfold outcome. rewrite Hs.
    destruct (attempt_interaction merge (hd false (oracle w)) (Some user)
                user (line_product item) "purchased" (tables w)) as [l Hl].
    repeat split.
    + apply drop_tl.
    + subst r. now rewrite Hl.
    + subst r. rewrite attempt_interaction_log. cbn [purchasesRecorded].
      now rewrite <- app_assoc.
    + exists (Requested r :: note ++ new). split.
      * now rewrite <- app_assoc.
      * cbn [requests map]. f_equal. clear -Hn2 Ir.
        induction note as [|e note IHn]; [exact Ir|].
        destruct e; cbn in *; try discriminate; now apply IHn.
Qed.

(** Once the request that clears the cart is carried out the user has no
    row left. *)
Lemma cart_count_after_clear user t :
  cart_count user
    (snd (attempt merge false (Some user) (DeleteCartOfUser user) t)) = 0%nat.
Proof.
  unfold attempt, cart_count. cbn -[owns].
  induction (cart_items t) as [|r l IH]; [reflexivity|]. cbn -[owns].
  destruct (String.eqb (cart_user r) user) eqn:E.
  - apply String.eqb_eq in E. rewrite E, owns_self. exact IH.
  - cbn -[owns]. now rewrite E.
Qed.

End CheckoutFacts.

(** C5. Checkout on a non-empty cart asks for one [purchased] interaction
    per cart line, in order and whatever the earlier inserts resolved to, and
    then for the deletion of all the user's cart rows.  The records of the
    inserts that went through are added to the log; whichever inserts failed
    (none, some or all of them), once the deletion is carried out the user
    has no cart row left, and the page's own list is emptied. *)
Theorem checkout_clears_the_cart merge w user :
  session w = Some user ->
  cartItems w <> [] ->
  let w' := run (checkout merge) w in
  (exists new,
     events w' = events w ++ new /\
     requests new =
       map (fun item => InsertInteraction user (line_product item) "purchased")
           (cartItems w)
       ++ [DeleteCartOfUser user]) /\
  swipe_interactions (tables w') =
    swipe_interactions (tables w) ++
    purchasesRecorded user (cartItems w) (oracle w) /\
  (nth (length (cartItems w)) (oracle w) false = false ->
     cart_count user (tables w') = 0%nat) /\
  cartItems w' = [].
Proof.
  intros Hs Hne w'. subst w'.
  unfold run, checkout. rewrite Hs.
  destruct (cartItems w) as [|item rest] eqn:Hitems; [congruence|].
  fold (run (recordPurchases merge user (item :: rest) ;;;
             clear <- request merge (DeleteCartOfUser user) ;;
             (if error clear then warn "clear cart failed" else ret tt) ;;;
             toast "Checkout complete! 🎉" ;;; setCartItems [] ;;; navigate "/swipe")
            w).
  rewrite run_bind.
  destruct (recordPurchases_spec merge user (item :: rest) w Hs)
    as (Is & Ic & Io & It & Il & new & Ie & Ir).
  set (w1 := snd (recordPurchases merge user (item :: rest) w)) in *.
  fold (run (recordPurchases merge user (item :: rest)) w) in w1.
  assert (Hend :
    let w' := run (clear <- request merge (DeleteCartOfUser user) ;;
                   (if error clear then warn "clear cart failed" else ret tt) ;;;
                   toast "Checkout complete! 🎉" ;;; setCartItems [] ;;;
                   navigate "/swipe") w1 in
    tables w' = snd (outcome merge (DeleteCartOfUser user) w1) /\
    cartItems w' = [] /\
    exists note, events w' =
                 events w1 ++ Requested (DeleteCartOfUser user) :: note /\
                 requests note = []).
  { run_handler. split_ifs; repeat split; rewrite <- !app_assoc; cbn [app];
      eexists; split; reflexivity. }
  destruct Hend as (Ht & Hc & note & He & Hn).
  rewrite Ht, Hc, He. unfold outcome. fold w1 in Is, Io, It, Il, Ie.
  rewrite Is, Io, Hs, hd_drop, Ie.
  repeat split.
  - exists (new ++ Requested (DeleteCartOfUser user) :: note). split.
    + now rewrite <- app_assoc.
    + clear -Ir Hn. rewrite <- Ir. clear Ir.
      induction new as [|e new IH]; cbn.
      * now rewrite Hn.
      * destruct e; cbn; try exact IH. now rewrite IH.
  - rewrite attempt_keeps_log by (intros; discriminate). exact Il.
  - intros ->. apply cart_count_after_clear.
Qed.

Lemma checkout_clears_the_cart_witness :
  cart_count "ann" (tables (run (checkout false) (Demo.world [true]))) = 0%nat.
Proof.
  refine (proj1 (proj2 (proj2 (checkout_clears_the_cart false
            (Demo.world [true]) "ann" eq_refl _))) eq_refl).
  discriminate.
Defined.

(** No insert failing, one failing, both failing: Bob's cart is empty each
    time, Ann's row stays, and the log holds the purchases that went
    through. *)
Example checkout_with_zero_one_or_all_inserts_failing :
  let after o := tables (run (checkout false) (Demo.checkout_world o)) in
  map (fun o => (cart_count "bob" (after o), cart_count "ann" (after o),
                 length (swipe_interactions (after o))))
      [[false; false]; [true; false]; [true; true]]
  = [(0, 1, 2); (0, 1, 1); (0, 1, 0)]%nat.
Proof. vm_compute. reflexivity. Qed.

(* ===================================================================== *)
(** ** Saved items *)
(* ===================================================================== *)

Section SavedFacts.

Variable merge : bool.

(** A request that resolves to an error has changed nothing. *)
Lemma attempt_error_unchanged f auth r t :
  error (fst (attempt merge f auth r t)) = true ->
  snd (attempt merge f auth r t) = t.
Proof.
  unfold attempt. destruct f; [reflexivity|].
  destruct r; cbn -[owns cart_rows_of saved_rows_of]; try discriminate;
    try reflexivity.
  all: destruct (owns auth user); [|reflexivity].
  all: try (destruct (cart_rows_of user product t); [discriminate|]).
  all: try (destruct (saved_rows_of user product t); [discriminate|]).
  all: try reflexivity.
  all: destruct merge; (discriminate || reflexivity).
Qed.

Lemma attempt_select_saved f auth t :
  snd (attempt merge f auth SelectSaved t) = t.
Proof. unfold attempt. destruct f; reflexivity. Qed.

Lemma attempt_select_products_in f auth ids t :
  snd (attempt merge f auth (SelectProductsIn ids) t) = t.
Proof. unfold attempt. destruct f; reflexivity. Qed.

Lemma filter_swap {A} (f g : A -> bool) (l : list A) :
  List.filter f (List.filter g l) = List.filter g (List.filter f l).
Proof.
  induction l as [|a l IH]; [reflexivity|]. cbn [List.filter].
  destruct (f a) eqn:Ef, (g a) eqn:Eg; cbn [List.filter];
    rewrite ?Ef, ?Eg, IH; reflexivity.
Qed.

(** An upsert that goes through leaves exactly one row for the pair: the new
    one, or the one there was, updated. *)
Lemma attempt_upsert_cart_done f user p q t :
  error (fst (attempt merge f (Some user) (UpsertCart user p q) t)) = false ->
  (length (cart_rows_of user p t) <= 1)%nat ->
  let t' := snd (attempt merge f (Some user) (UpsertCart user p q) t) in
  length (cart_rows_of user p t') = 1%nat /\ saved_items t' = saved_items t.
Proof.
  unfold attempt. destruct f; [discriminate|].
  cbn -[owns cart_rows_of]. rewrite owns_self.
  destruct (cart_rows_of user p t) as [|r rows] eqn:E.
  - intros _ _. cbn [snd]. split; [|reflexivity].
    unfold cart_rows_of in *. cbn [cart_items set_cart].
    rewrite List.filter_app, E. cbn [List.filter app].
    now rewrite cart_pair_self.
  - destruct merge; [|discriminate]. intros _ Hle. cbn [snd].
    split; [|reflexivity].
    assert (Hlen : length (cart_rows_of user p t) = 1%nat).
    { rewrite E in *. destruct rows; cbn in *; [reflexivity|lia]. }
    rewrite <- Hlen. unfold cart_rows_of. cbn [cart_items set_cart].
    clear. induction (cart_items t) as [|c l IH]; [reflexivity|].
    cbn [map List.filter]. destruct (cart_pair user p c) eqn:Ec.
    + rewrite cart_pair_self. cbn [length]. now rewrite IH.
    + rewrite Ec. exact IH.
Qed.

(** Deleting the saved row by its id empties the pair when that row is the
    pair's row. *)
Lemma attempt_delete_saved_by_id user p sid t :
  saved_rows_of user p t = [mkSavedRow sid user p] ->
  let t' := snd (attempt merge false (Some user) (DeleteSavedById sid) t) in
  saved_rows_of user p t' = [] /\ cart_items t' = cart_items t.
Proof.
  intros H. unfold attempt. cbn -[owns]. split; [|reflexivity].
  unfold saved_rows_of in *. cbn -[owns]. rewrite filter_swap, H.
  cbn -[owns]. now rewrite Nat.eqb_refl, owns_self.
Qed.

(** The tables after a move to the cart, request by request. *)
Lemma handleMoveToCart_tables w user p sid :
  session w = Some user ->
  tables (run (handleMoveToCart merge p sid) w) =
    let r1 := attempt merge (nth 0 (oracle w) false) (Some user)
                (UpsertCart user p 1) (tables w) in
    if error (fst r1) then snd r1
    else snd (attempt merge (nth 1 (oracle w) false) (Some user)
                (DeleteSavedById sid) (snd r1)).
Proof.
  intros Hs. run_handler. rewrite Hs. cbn -[attempt]. open_outcome. rewrite Hs.
  destruct (oracle w) as [|f0 [|f1 o]]; cbn -[attempt].
  all: repeat match goal with
         | |- context [if ?c then _ else _] => destruct c eqn:?; cbn -[attempt]
         | |- context [match ?c with Null => _ | _ => _ end] =>
             destruct c eqn:?; cbn -[attempt]
         | |- context [match ?c with [] => _ | _ :: _ => _ end] =>
             destruct c eqn:?; cbn -[attempt]
         end.
  all: rewrite ?attempt_select_products_in, ?attempt_select_saved; reflexivity.
Qed.

(** What a move to the cart does, in order: the saved row is only asked to
    be deleted after an upsert that went through. *)
Lemma handleMoveToCart_events w user p sid :
  session w = Some user ->
  exists rest,
    events (run (handleMoveToCart merge p sid) w) =
    events w ++ Requested (UpsertCart user p 1)
      :: (if error (fst (outcome merge (UpsertCart user p 1) w))
          then [Toast "Error adding to cart"]
          else Requested (DeleteSavedById sid) :: rest).
Proof.
  intros Hs. run_handler. rewrite Hs. cbn -[attempt outcome].
  destruct (error (fst (outcome merge (UpsertCart user p 1) w)));
    cbn -[attempt outcome].
  - exists []. now rewrite <- app_assoc.
  - repeat match goal with
         | |- context [if ?c then _ else _] =>
             destruct c eqn:?; cbn -[attempt outcome]
         | |- context [match ?c with Null => _ | _ => _ end] =>
             destruct c eqn:?; cbn -[attempt outcome]
         | |- context [match ?c with [] => _ | _ :: _ => _ end] =>
             destruct c eqn:?; cbn -[attempt outcome]
         end.
    all: rewrite <- !app_assoc; cbn [app]; eexists; reflexivity.
Qed.

End SavedFacts.

(** C8. Move-to-cart first asks for the upsert of the cart row.  When the
    upsert resolves to an error nothing else is requested and every table is
    as it was, the saved row included.  When it goes through, the saved row
    is asked to be deleted; once that is carried out the pair, whose saved
    row is the one moved, has no saved row and exactly one cart row. *)
Theorem move_to_cart_commits_or_retains merge w user p sid :
  session w = Some user ->
  let res := fst (outcome merge (UpsertCart user p 1) w) in
  let w' := run (handleMoveToCart merge p sid) w in
  (exists rest,
     events w' =
     events w ++ Requested (UpsertCart user p 1)
       :: (if error res then [Toast "Error adding to cart"]
           else Requested (DeleteSavedById sid) :: rest)) /\
  (error res = true -> tables w' = tables w) /\
  (error res = false ->
   saved_rows_of user p (tables w) = [mkSavedRow sid user p] ->
   (length (cart_rows_of user p (tables w)) <= 1)%nat ->
   nth 1 (oracle w) false = false ->
     length (saved_rows_of user p (tables w')) = 0%nat /\
     length (cart_rows_of user p (tables w')) = 1%nat).
Proof.
  intros Hs res w'. subst res w'.
  split; [exact (handleMoveToCart_events merge w user p sid Hs)|].
  rewrite (handleMoveToCart_tables merge w user p sid Hs). cbn zeta.
  unfold outcome. rewrite Hs.
  replace (hd false (oracle w)) with (nth 0 (oracle w) false)
    by (destruct (oracle w); reflexivity).
  set (f0 := nth 0 (oracle w) false).
  split.
  - intros He. rewrite He. now apply attempt_error_unchanged.
  - intros He Hsaved Hcart Hok. rewrite He, Hok.
    destruct (attempt_upsert_cart_done merge f0 user p 1 (tables w) He Hcart)
      as [Hone Hkeep].
    set (t1 := snd (attempt merge f0 (Some user) (UpsertCart user p 1) (tables w)))
      in *.
    assert (Hs1 : saved_rows_of user p t1 = [mkSavedRow sid user p])
      by (unfold saved_rows_of in *; now rewrite Hkeep).
    destruct (attempt_delete_saved_by_id merge user p sid t1 Hs1) as [Hnone Hc].
    split.
    + now rewrite Hnone.
    + unfold cart_rows_of in *. now rewrite Hc.
Qed.

Lemma move_to_cart_commits_or_retains_witness :
  length
    (saved_rows_of "ann" "mug"
       (tables (run (handleMoveToCart false "mug" 1) (Demo.world [])))) = 0%nat /\
  length
    (cart_rows_of "ann" "mug"
       (tables (run (handleMoveToCart false "mug" 1) (Demo.world [])))) = 1%nat.
Proof.
  refine (proj2 (proj2 (move_to_cart_commits_or_retains false (Demo.world [])
            "ann" "mug" 1 eq_refl)) eq_refl eq_refl _ eq_refl).
  vm_compute. lia.
Defined.

(* ===================================================================== *)
(** ** The uniqueness constraints are kept *)
(* ===================================================================== *)

Section UniqueFacts.

Variable merge : bool.

Lemma filter_filter_le {A} (f g : A -> bool) (l : list A) :
  (length (List.filter f (List.filter g l)) <= length (List.filter f l))%nat.
Proof.
  induction l as [|a l IH]; [reflexivity|]. cbn [List.filter].
  destruct (g a), (f a) eqn:Ef; cbn [List.filter length]; rewrite ?Ef;
    cbn [length]; lia.
Qed.

Lemma cart_pair_eq u p r : cart_pair u p r = true <-> cart_user r = u /\ cart_product r = p.
Proof.
  unfold cart_pair. rewrite andb_true_iff, !String.eqb_eq. reflexivity.
Qed.

Lemma saved_pair_eq u p r :
  saved_pair u p r = true <-> saved_user r = u /\ saved_product r = p.
Proof.
  unfold saved_pair. rewrite andb_true_iff, !String.eqb_eq. reflexivity.
Qed.

Lemma cart_unique_add t n u p q k :
  cart_unique t -> cart_rows_of u p t = [] ->
  cart_unique (set_cart t (cart_items t ++ [mkCartRow n u p q]) k).
Proof.
  intros Hu Hnone u' p'. specialize (Hu u' p').
  unfold cart_rows_of in *. cbn [cart_items set_cart].
  rewrite List.filter_app, length_app. cbn [List.filter].
  destruct (cart_pair u' p' (mkCartRow n u p q)) eqn:E; cbn [length]; [|lia].
  apply cart_pair_eq in E as [Eu Ep]. cbn in Eu, Ep. subst u' p'.
  rewrite Hnone. cbn. lia.
Qed.

Lemma saved_unique_add t n u p k :
  saved_unique t -> saved_rows_of u p t = [] ->
  saved_unique (set_saved t (saved_items t ++ [mkSavedRow n u p]) k).
Proof.
  intros Hu Hnone u' p'. specialize (Hu u' p').
  unfold saved_rows_of in *. cbn [saved_items set_saved].
  rewrite List.filter_app, length_app. cbn [List.filter].
  destruct (saved_pair u' p' (mkSavedRow n u p)) eqn:E; cbn [length]; [|lia].
  apply saved_pair_eq in E as [Eu Ep]. cbn in Eu, Ep. subst u' p'.
  rewrite Hnone. cbn. lia.
Qed.

(** An update of the pair's row moves no row from one pair to another. *)
Lemma cart_rows_update_length l u p q u' p' :
  length (List.filter (cart_pair u' p')
            (map (fun r => if cart_pair u p r
                           then mkCartRow (cart_row_id r) u p q else r) l))
  = length (List.filter (cart_pair u' p') l).
Proof.
  induction l as [|c l IH]; [reflexivity|]. cbn [map List.filter].
  assert (E : cart_pair u' p'
                (if cart_pair u p c then mkCartRow (cart_row_id c) u p q else c)
              = cart_pair u' p' c).
  { destruct (cart_pair u p c) eqn:Ec; [|reflexivity].
    apply cart_pair_eq in Ec as [Eu Ep]. unfold cart_pair. cbn.
    now rewrite Eu, Ep. }
  rewrite E. destruct (cart_pair u' p' c); cbn [length]; now rewrite IH.
Qed.

Lemma cart_unique_update t u p q k :
  cart_unique t ->
  cart_unique
    (set_cart t
       (map (fun r => if cart_pair u p r
                      then mkCartRow (cart_row_id r) u p q else r)
            (cart_items t)) k).
Proof.
  intros Hu u' p'. specialize (Hu u' p').
  unfold cart_rows_of in *. cbn [cart_items set_cart].
  now rewrite cart_rows_update_length.
Qed.

(** Whatever the store is asked, both tables keep at most one row per
    (user, product) pair. *)
Lemma execute_keeps_unique auth r t :
  cart_unique t -> saved_unique t ->
  cart_unique (snd (execute merge auth r t)) /\
  saved_unique (snd (execute merge auth r t)).
Proof.
  intros Hc Hv.
  destruct r; cbn -[owns cart_rows_of saved_rows_of]; try (split; assumption).
  - destruct (owns auth user); split; assumption.
  - destruct (owns auth user); [|split; assumption].
    destruct (cart_rows_of user product t) eqn:E; [|split; assumption].
    split; [now apply cart_unique_add|exact Hv].
  - destruct (owns auth user); [|split; assumption].
    destruct (cart_rows_of user product t) eqn:E.
    + split; [now apply cart_unique_add|exact Hv].
    + destruct merge; [|split; assumption].
      split; [now apply cart_unique_update|exact Hv].
  - split; [|exact Hv]. intros u p. specialize (Hc u p).
    unfold cart_rows_of in *. cbn -[owns].
    etransitivity; [apply filter_filter_le|exact Hc].
  - split; [exact Hc|]. intros u p. specialize (Hv u p).
    unfold saved_rows_of in *. cbn -[owns].
    etransitivity; [apply filter_filter_le|exact Hv].
  - destruct (owns auth user); [|split; assumption].
    destruct (saved_rows_of user product t) eqn:E; [|split; assumption].
    split; [exact Hc|now apply saved_unique_add].
  - destruct (owns auth user); [|split; assumption].
    destruct (saved_rows_of user product t) eqn:E.
    + split; [exact Hc|now apply saved_unique_add].
    + destruct merge; split; assumption.
  - split; [exact Hc|]. intros u p. specialize (Hv u p).
    unfold saved_rows_of in *. cbn -[owns].
    etransitivity; [apply filter_filter_le|exact Hv].
Qed.

Lemma request_keeps_unique r w :
  cart_unique (tables w) -> saved_unique (tables w) ->
  cart_unique (tables (snd (request merge r w))) /\
  saved_unique (tables (snd (request merge r w))).
Proof.
  intros Hc Hv. cbn. unfold outcome, attempt.
  destruct (hd false (oracle w)); [split; assumption|].
  now apply execute_keeps_unique.
Qed.

Lemma attempt_keeps_unique_pair f auth r t :
  cart_unique t /\ saved_unique t ->
  cart_unique (snd (attempt merge f auth r t)) /\
  saved_unique (snd (attempt merge f auth r t)).
Proof.
  intros [Hc Hv]. unfold attempt. destruct f; [split; assumption|].
  now apply execute_keeps_unique.
Qed.

Lemma attempt_keeps_unique f auth r t :
  cart_unique t -> saved_unique t ->
  cart_unique (snd (attempt merge f auth r t)) /\
  saved_unique (snd (attempt merge f auth r t)).
Proof. intros Hc Hv. now apply attempt_keeps_unique_pair. Qed.

(** A swipe, left or right, keeps both constraints. *)
Lemma handleSwipe_keeps_unique p dir w :
  cart_unique (tables w) -> saved_unique (tables w) ->
  cart_unique (tables (run (handleSwipe merge p dir) w)) /\
  saved_unique (tables (run (handleSwipe merge p dir) w)).
Proof.
  intros Hc Hv. destruct (session w) as [user|] eqn:Hs.
  - destruct dir.
    + rewrite (handleSwipe_left_tables merge w user p Hs). cbn zeta.
      repeat (apply attempt_keeps_unique_pair). now split.
    + rewrite (handleSwipe_right_tables merge w user p Hs). cbn zeta.
      destruct (no_rows _); repeat (apply attempt_keeps_unique_pair);
        now split.
  - unfold run. rewrite (handleSwipe_signed_out merge p dir w Hs). now split.
Qed.

End UniqueFacts.

(* ===================================================================== *)
(** ** The earlier, upsert-based swipe *)
(* ===================================================================== *)

Section UpsertFlow.

Variable merge : bool.

Lemma handleSwipe_upsert_tables w user p dir :
  session w = Some user ->
  tables (run (handleSwipe_upsert merge p dir) w) =
    let t1 := snd (attempt merge (nth 0 (oracle w) false) (Some user)
                     (InsertInteraction user p (direction_text dir)) (tables w)) in
    snd (attempt merge (nth 1 (oracle w) false) (Some user)
           (match dir with
            | SwipeRight => UpsertCart user p 1
            | SwipeLeft => UpsertSaved user p
            end) t1).
Proof.
  intros Hs. run_handler. rewrite Hs. cbn -[attempt]. open_outcome. rewrite Hs.
  destruct dir, (oracle w) as [|f0 [|f1 o]]; cbn -[attempt]; split_ifs;
    reflexivity.
Qed.

(** In the upsert-based flow too a right swipe on a pair that has a cart row
    adds no row for the pair; the row itself is as it was when the clash is
    reported as an error. *)
Lemma upsert_right_swipe_adds_no_row w user p :
  session w = Some user ->
  cart_rows_of user p (tables w) <> [] ->
  let w' := run (handleSwipe_upsert merge p SwipeRight) w in
  length (cart_rows_of user p (tables w')) =
    length (cart_rows_of user p (tables w)) /\
  (merge = false -> cart_items (tables w') = cart_items (tables w)).
Proof.
  intros Hs Hex w'. subst w'.
  rewrite (handleSwipe_upsert_tables w user p SwipeRight Hs). cbn zeta.
  destruct (attempt_interaction merge (nth 0 (oracle w) false) (Some user)
              user p "right" (tables w)) as [l Ht1].
  cbn [direction_text].
  set (t1 := snd (attempt merge _ _ (InsertInteraction _ _ _) _)) in *.
  assert (Hrows : cart_rows_of user p t1 = cart_rows_of user p (tables w))
    by (now rewrite Ht1).
  assert (Hitems : cart_items t1 = cart_items (tables w)) by (now rewrite Ht1).
  rewrite <- Hrows, <- Hitems. rewrite <- Hrows in Hex.
  unfold attempt. destruct (nth 1 (oracle w) false); [split; reflexivity|].
  cbn -[owns cart_rows_of]. rewrite owns_self.
  destruct (cart_rows_of user p t1) as [|r rows] eqn:E; [congruence|].
  destruct merge.
  - split; [|discriminate]. cbn [snd]. rewrite <- E. unfold cart_rows_of.
    cbn [cart_items set_cart]. apply cart_rows_update_length.
  - cbn [snd]. rewrite E. split; reflexivity.
Qed.

(** And a left swipe on a pair that has a saved row leaves [saved_items] as
    it was. *)
Lemma upsert_left_swipe_keeps_row w user p :
  session w = Some user ->
  saved_rows_of user p (tables w) <> [] ->
  saved_items (tables (run (handleSwipe_upsert merge p SwipeLeft) w)) =
  saved_items (tables w).
Proof.
  intros Hs Hex.
  rewrite (handleSwipe_upsert_tables w user p SwipeLeft Hs). cbn zeta.
  destruct (attempt_interaction merge (nth 0 (oracle w) false) (Some user)
              user p "left" (tables w)) as [l Ht1].
  cbn [direction_text].
  set (t1 := snd (attempt merge _ _ (InsertInteraction _ _ _) _)) in *.
  assert (Hrows : saved_rows_of user p t1 = saved_rows_of user p (tables w))
    by (now rewrite Ht1).
  assert (Hitems : saved_items t1 = saved_items (tables w)) by (now rewrite Ht1).
  rewrite <- Hitems. rewrite <- Hrows in Hex.
  unfold attempt. destruct (nth 1 (oracle w) false); [reflexivity|].
  cbn -[owns saved_rows_of]. rewrite owns_self.
  destruct (saved_rows_of user p t1) as [|r rows] eqn:E; [congruence|].
  destruct merge; reflexivity.
Qed.

End UpsertFlow.

(* ===================================================================== *)
(** ** More on the listings *)
(* ===================================================================== *)

Section FilterFacts.

Import Listing.

Lemma dedupe_In seen l p : In p (dedupe seen l) -> In p l.
Proof.
  revert seen. induction l as [|q l IH]; intros seen; cbn [dedupe]; [easy|].
  destruct (bool_decide (name_key q ∈ seen)).
  - intros H. right. eapply IH, H.
  - intros [->|H]; [now left|right; eapply IH, H].
Qed.

Lemma dedupe_sublist seen l : sublist (dedupe seen l) l.
Proof.
  revert seen. induction l as [|q l IH]; intros seen; cbn [dedupe];
    [constructor|].
  destruct (bool_decide (name_key q ∈ seen)).
  - apply sublist_cons, IH.
  - apply sublist_skip, IH.
Qed.

Lemma filter_sublist {A} (f : A -> bool) (l : list A) :
  sublist (List.filter f l) l.
Proof.
  induction l as [|a l IH]; cbn [List.filter]; [constructor|].
  destruct (f a); [apply sublist_skip, IH|apply sublist_cons, IH].
Qed.

(** The keys [dedupe] lets through are new and pairwise different. *)
Lemma dedupe_keys seen l :
  NoDup (map name_key (dedupe seen l)) /\
  forall p, In p (dedupe seen l) -> name_key p ∉ seen.
Proof.
  revert seen. induction l as [|q l IH]; intros seen; cbn [dedupe].
  - split; [constructor|easy].
  - destruct (bool_decide (name_key q ∈ seen)) eqn:E; [apply IH|].
    apply bool_decide_eq_false in E.
    destruct (IH ({[ name_key q ]} ∪ seen)) as [Hnd Hout].
    split.
    + cbn [map]. constructor; [|exact Hnd].
      rewrite list_elem_of_In, in_map_iff. intros (p & Hk & Hp).
      apply (Hout p Hp). rewrite Hk. apply elem_of_union_l, elem_of_singleton.
      reflexivity.
    + intros p [<-|Hp]; [exact E|].
      intros Hs. apply (Hout p Hp). now apply elem_of_union_r.
Qed.


(** A list whose keys are new and pairwise different goes through [dedupe]
    as it is. *)
Lemma dedupe_fixed seen l :
  NoDup (map name_key l) ->
  (forall p, In p l -> name_key p ∉ seen) ->
  dedupe seen l = l.
Proof.
  revert seen. induction l as [|q l IH]; intros seen Hnd Hout; [reflexivity|].
  cbn [dedupe]. cbn [map] in Hnd. apply NoDup_cons in Hnd as [Hq Hnd].
  rewrite bool_decide_eq_false_2 by (apply Hout; now left).
  f_equal. apply IH; [exact Hnd|].
  intros p Hp Hs. apply elem_of_union in Hs as [Hs|Hs].
  - apply elem_of_singleton in Hs. apply Hq. rewrite <- Hs.
    apply list_elem_of_In, in_map, Hp.
  - apply (Hout p); [now right|exact Hs].
Qed.


Lemma filter_all {A} (f : A -> bool) (l : list A) :
  (forall x, In x l -> f x = true) -> List.filter f l = l.
Proof.
  induction l as [|a l IH]; intros H; [reflexivity|]. cbn [List.filter].
  rewrite (H a) by now left. f_equal. apply IH. intros x Hx. apply H. now right.
Qed.


End FilterFacts.

(** X1. Whatever the catalogue, the feed and the seller list only show
    products of the catalogue, in the catalogue's order, and none that
    their deny-list test turns down. *)
Theorem filters_keep_order_and_drop_denied (data : list Product) :
  sublist (Listing.feed_filter data) data /\
  sublist (Listing.seller_filter data) data /\
  (forall p, In p (Listing.feed_filter data) -> Listing.feed_denied p = false) /\
  (forall p, In p (Listing.seller_filter data) ->
             Listing.seller_denied p = false).
Proof.
  unfold Listing.feed_filter, Listing.seller_filter. repeat split.
  - etransitivity; [apply dedupe_sublist|apply filter_sublist].
  - etransitivity; [apply dedupe_sublist|apply filter_sublist].
  - intros p Hp. apply dedupe_In, filter_In in Hp as [_ Hp].
    now apply negb_true_iff in Hp.
  - intros p Hp. apply dedupe_In, filter_In in Hp as [_ Hp].
    now apply negb_true_iff in Hp.
Qed.

Lemma filters_keep_order_and_drop_denied_witness :
  Listing.seller_denied Demo.mug = false.
Proof.
  apply (proj2 (proj2 (proj2 (filters_keep_order_and_drop_denied
                                [Demo.shirt; Demo.mug])))).
  right. left. reflexivity.
Defined.





(** X4. Filtering twice is filtering once, for the feed and for the seller
    list. *)
Theorem filters_are_idempotent (data : list Product) :
  Listing.feed_filter (Listing.feed_filter data) = Listing.feed_filter data /\
  Listing.seller_filter (Listing.seller_filter data) =
  Listing.seller_filter data.
Proof.
  split.
  - unfold Listing.feed_filter at 1. rewrite filter_all.
    + apply dedupe_fixed; [apply dedupe_keys|].
      intros p _. apply not_elem_of_empty.
    + intros p Hp. unfold Listing.feed_filter in Hp.
      apply dedupe_In, filter_In in Hp as [_ Hp]. exact Hp.
  - unfold Listing.seller_filter at 1. rewrite filter_all.
    + apply dedupe_fixed; [apply dedupe_keys|].
      intros p _. apply not_elem_of_empty.
    + intros p Hp. unfold Listing.seller_filter in Hp.
      apply dedupe_In, filter_In in Hp as [_ Hp]. exact Hp.
Qed.

Section TrimFacts.

Import Listing.








End TrimFacts.


Section AnalyticsMore.

Import Listing Dashboard.

(** The rows whose action is neither "right" nor "left". *)
Lemma rows_split (rows : list SwipeRow) :
  length rows =
  (length (with_action "right" rows) + length (with_action "left" rows)
   + length (List.filter
               (fun s => negb (String.eqb (row_action s) "right")
                         && negb (String.eqb (row_action s) "left")) rows))%nat.
Proof.
  unfold with_action. induction rows as [|s rows IH]; [reflexivity|].
  cbn [List.filter length].
  destruct (String.eqb (row_action s) "right") eqn:Er.
  - apply String.eqb_eq in Er. rewrite Er. cbn. lia.
  - destruct (String.eqb (row_action s) "left"); cbn; lia.
Qed.


End AnalyticsMore.

(** X6. After [fetchAnalytics] the "Skipped" figure is the number of fetched
    records that are neither right nor left swipes ([Math.max] never has to
    clamp), so the three figures add up to [totalViews]; the chart shows
    only slices of positive value and they add up to [totalViews] too. *)
Theorem chart_accounts_for_every_view (rows : list Listing.SwipeRow)
    (prev : Listing.Analytics) :
  let a := Listing.fetchAnalytics (Some rows) prev in
  Dashboard.skipped a =
    Z.of_nat
      (length (List.filter
                 (fun s => negb (String.eqb (Listing.row_action s) "right")
                           && negb (String.eqb (Listing.row_action s) "left"))
                 rows)) /\
  (Z.of_nat (Listing.totalSwipesRight a) + Z.of_nat (Listing.totalSwipesLeft a)
   + Dashboard.skipped a = Z.of_nat (Listing.totalViews a))%Z /\
  (forall item, In item (Dashboard.chartData a) ->
                (0 < Dashboard.slice_value item)%Z) /\
  fold_right Z.add 0%Z (map Dashboard.slice_value (Dashboard.chartData a)) =
    Z.of_nat (Listing.totalViews a).
Proof.
  intros a. pose proof (rows_split rows) as Hsplit.
  assert (Hsk : Dashboard.skipped a =
    Z.of_nat
      (length (List.filter
                 (fun s => negb (String.eqb (Listing.row_action s) "right")
                           && negb (String.eqb (Listing.row_action s) "left"))
                 rows))).
  { unfold Dashboard.skipped, a. cbn [Listing.fetchAnalytics
      Listing.totalViews Listing.totalSwipesRight Listing.totalSwipesLeft].
    lia. }
  split; [exact Hsk|]. split; [|split].
  - rewrite Hsk. unfold a. cbn [Listing.fetchAnalytics
      Listing.totalViews Listing.totalSwipesRight Listing.totalSwipesLeft].
    lia.
  - intros item Hin. unfold Dashboard.chartData in Hin.
    apply filter_In in Hin as [_ Hpos]. now apply Z.ltb_lt in Hpos.
  - unfold Dashboard.chartData. rewrite Hsk. unfold a.
    cbn [Listing.fetchAnalytics Listing.totalViews Listing.totalSwipesRight
         Listing.totalSwipesLeft List.filter Dashboard.slice_value].
    repeat match goal with
           | |- context [(0 <? ?z)%Z] =>
               let E := fresh "E" in
               destruct (0 <? z)%Z eqn:E;
               [apply Z.ltb_lt in E|apply Z.ltb_ge in E]
           end;
      cbn [map fold_right Dashboard.slice_value]; lia.
Qed.

Lemma chart_accounts_for_every_view_witness :
  (0 < Dashboard.slice_value (Dashboard.mkSlice "Skipped" 1 "#6b7280"))%Z.
Proof.
  apply (proj1 (proj2 (proj2 (chart_accounts_for_every_view
           [Listing.mkSwipeRow "right" 10; Listing.mkSwipeRow "purchased" 10]
           Listing.initialAnalytics)))).
  right. left. reflexivity.
Defined.



(* ===================================================================== *)
(** ** More on the Swipe page *)
(* ===================================================================== *)

Section SwipeMore.

Variable merge : bool.

Lemma handleSwipe_session p dir w :
  session (run (handleSwipe merge p dir) w) = session w.
Proof.
  run_handler. destruct (session w) eqn:E; [|cbn; exact E].
  destruct dir; cbn -[attempt]; split_ifs; first [reflexivity|exact E].
Qed.

Lemma handleKeyPress_cases key w :
  handleKeyPress merge key w = (tt, w) \/
  exists first dir,
    In first (visibleProducts (products w) (swipedProducts w)) /\
    handleKeyPress merge key w = handleSwipe merge (product_id first) dir w.
Proof.
  unfold handleKeyPress.
  destruct (visibleProducts (products w) (swipedProducts w)) as [|x xs];
    [now left|].
  destruct (String.eqb key "ArrowLeft").
  - right. exists x, SwipeLeft. split; [now left|reflexivity].
  - destruct (String.eqb key "ArrowRight"); [|now left].
    right. exists x, SwipeRight. split; [now left|reflexivity].
Qed.

(** Every gesture but a reload runs [handleSwipe] once or does nothing. *)
Lemma perform_cases g w :
  g <> Reload ->
  perform merge g w = (tt, w) \/
  exists p dir, perform merge g w = handleSwipe merge p dir w.
Proof.
  destruct g as [p d|key|]; [| |congruence]; intros _; cbn [perform].
  - unfold onDragEnd. destruct (Card.handleDragEnd d) as [dir|].
    + right. now exists p, dir.
    + now left.
  - destruct (handleKeyPress_cases key w) as [H|(x & dir & _ & H)].
    + now left.
    + right. now exists (product_id x), dir.
Qed.

(** A reload that fails keeps the list, one that goes through installs the
    filtered catalogue, newest first; the tables are not touched. *)
Lemma fetchProducts_products w :
  products (run (fetchProducts merge) w) =
    (if hd false (oracle w) then products w
     else Listing.feed_filter (rev (products_table (tables w)))) /\
  tables (run (fetchProducts merge) w) = tables w /\
  session (run (fetchProducts merge) w) = session w.
Proof.
  run_handler. open_outcome. unfold attempt.
  destruct (hd false (oracle w)); cbn; repeat split.
Qed.

Lemma perform_products g w :
  products (run (perform merge g) w) = products w \/
  exists data, products (run (perform merge g) w) = Listing.feed_filter data.
Proof.
  assert (Hswipe : g <> Reload ->
                   products (run (perform merge g) w) = products w).
  { intros Hg. destruct (perform_cases g w Hg) as [H|(p & dir & H)];
      unfold run; rewrite H; [reflexivity|].
    apply handleSwipe_products. }
  destruct g as [p d|key|]; [left; now apply Hswipe..|].
  cbn [perform]. destruct (fetchProducts_products w) as [H _]. rewrite H.
  destruct (hd false (oracle w)); [now left|right; eauto].
Qed.

End SwipeMore.


Section FeedInvariant.

Variable merge : bool.

Lemma sublist_map_NoDup {A B} (f : A -> B) (l1 l2 : list A) :
  sublist l1 l2 -> NoDup (map f l2) -> NoDup (map f l1).
Proof.
  induction 1 as [|x l1 l2 Hs IH|x l1 l2 Hs IH]; cbn [map]; intros Hnd.
  - constructor.
  - apply NoDup_cons in Hnd as [Hx Hnd]. constructor; [|now apply IH].
    rewrite list_elem_of_In, in_map_iff. intros (y & Hy & Hin).
    apply Hx. rewrite list_elem_of_In, in_map_iff. exists y. split; [exact Hy|].
    apply list_elem_of_In. eapply elem_of_sublist; [|eassumption].
    now apply list_elem_of_In.
  - apply NoDup_cons in Hnd as [_ Hnd]. now apply IH.
Qed.

(** What the page holds is clean: no deny-listed name, no name twice. *)
Lemma performAll_clean gs w :
  (forall p, In p (products w) -> Listing.feed_denied p = false) ->
  NoDup (map Listing.name_key (products w)) ->
  (forall p, In p (products (performAll merge gs w)) ->
             Listing.feed_denied p = false) /\
  NoDup (map Listing.name_key (products (performAll merge gs w))).
Proof.
  revert w. induction gs as [|g gs IH]; intros w Hd Hnd; cbn [performAll].
  - now split.
  - destruct (perform_products merge g w) as [H|(data & H)]; apply IH;
      rewrite H; try assumption.
    + intros p Hp. unfold Listing.feed_filter in Hp.
      apply dedupe_In, filter_In in Hp as [_ Hp].
      now apply negb_true_iff in Hp.
    + apply dedupe_keys.
Qed.

End FeedInvariant.

(** X8. If the products the Swipe page holds carry no deny-listed name and
    no name twice (as when the page has just loaded, or after any reload),
    then after any series of releases, key presses and reloads, failed or
    not, the cards on offer carry no deny-listed name and no name twice. *)
Theorem feed_stays_filtered merge (gs : list Gesture) (w : World) :
  (forall p, In p (products w) -> Listing.feed_denied p = false) ->
  NoDup (map Listing.name_key (products w)) ->
  let w' := performAll merge gs w in
  (forall p, In p (visibleProducts (products w') (swipedProducts w')) ->
             Listing.feed_denied p = false) /\
  NoDup (map Listing.name_key
             (visibleProducts (products w') (swipedProducts w'))).
Proof.
  intros Hd Hnd w'. destruct (performAll_clean merge gs w Hd Hnd) as [Hd' Hnd'].
  fold w' in Hd', Hnd'. split.
  - intros p Hp. apply Hd'. unfold visibleProducts in Hp.
    now apply filter_In in Hp as [Hp _].
  - eapply sublist_map_NoDup; [apply filter_sublist|exact Hnd'].
Qed.

Lemma feed_stays_filtered_witness :
  NoDup (map Listing.name_key
           (visibleProducts
              (products (performAll false [Reload; KeyDown "ArrowLeft"]
                                    (Demo.world [])))
              (swipedProducts (performAll false [Reload; KeyDown "ArrowLeft"]
                                          (Demo.world []))))).
Proof.
  refine (proj2 (feed_stays_filtered false [Reload; KeyDown "ArrowLeft"]
                   (Demo.world []) _ _)).
  - intros p [<-|[<-|[]]]; reflexivity.
  - apply (bool_decide_unpack _). vm_compute. reflexivity.
Defined.

(** X9. Signed out, releases and key presses change nothing at all, and
    neither do checkout and move-to-cart: nothing is marked, requested or
    shown.  Checkout on an empty cart list changes nothing either. *)
Theorem guards_stop_the_handlers merge (w : World) :
  (session w = None ->
     (forall gs, ~ In Reload gs -> performAll merge gs w = w) /\
     checkout merge w = (tt, w) /\
     (forall p sid, handleMoveToCart merge p sid w = (tt, w))) /\
  (cartItems w = [] -> checkout merge w = (tt, w)).
Proof.
  split.
  - intros Hs. repeat split.
    + intros gs. induction gs as [|g gs IH]; intros Hg; [reflexivity|].
      cbn [performAll].
      assert (Hrun : run (perform merge g) w = w).
      { destruct (perform_cases merge g w) as [H|(p & dir & H)].
        - intros ->. apply Hg. now left.
        - unfold run. now rewrite H.
        - unfold run. rewrite H.
          now rewrite (handleSwipe_signed_out merge p dir w Hs). }
      rewrite Hrun. apply IH. intros Hin. apply Hg. now right.
    + unfold checkout. now rewrite Hs.
    + intros p sid. unfold handleMoveToCart, bind, getSession. now rewrite Hs.
  - intros Hc. unfold checkout. rewrite Hc. now destruct (session w).
Qed.

Lemma guards_stop_the_handlers_witness :
  performAll false [KeyDown "ArrowRight"; Release "mug" 150]
    (mkWorld Demo.store None [Demo.mug] ∅ [] [] [] [])
  = mkWorld Demo.store None [Demo.mug] ∅ [] [] [] [] /\
  checkout false (mkWorld Demo.store (Some "ann") [] ∅ [] [] [] [])
  = (tt, mkWorld Demo.store (Some "ann") [] ∅ [] [] [] []).
Proof.
  split.
  - refine (proj1 (proj1 (guards_stop_the_handlers false
              (mkWorld Demo.store None [Demo.mug] ∅ [] [] [] [])) eq_refl)
              [KeyDown "ArrowRight"; Release "mug" 150] _).
    intros [H|[H|[]]]; discriminate H.
  - exact (proj2 (guards_stop_the_handlers false
              (mkWorld Demo.store (Some "ann") [] ∅ [] [] [] [])) eq_refl).
Defined.

Section LogFacts.

Variable merge : bool.

Lemma perform_log g w :
  exists added,
    swipe_interactions (tables (run (perform merge g) w)) =
      swipe_interactions (tables w) ++ added /\
    (length added <= 1)%nat /\
    Forall (fun i => interaction_action i = "left" \/
                     interaction_action i = "right") added.
Proof.
  assert (Hnone : exists added,
    swipe_interactions (tables w) = swipe_interactions (tables w) ++ added /\
    (length added <= 1)%nat /\
    Forall (fun i => interaction_action i = "left" \/
                     interaction_action i = "right") added).
  { exists []. rewrite app_nil_r. repeat split; [cbn; lia|constructor]. }
  assert (Hswipe : forall p dir, exists added,
    swipe_interactions (tables (run (handleSwipe merge p dir) w)) =
      swipe_interactions (tables w) ++ added /\
    (length added <= 1)%nat /\
    Forall (fun i => interaction_action i = "left" \/
                     interaction_action i = "right") added).
  { intros p dir. destruct (session w) as [user|] eqn:Hs.
    - rewrite (handleSwipe_log merge w user p dir Hs).
      destruct (nth 0 (oracle w) false).
      + exists []. repeat split; [cbn; lia|constructor].
      + eexists. repeat split; [cbn; lia|].
        constructor; [|constructor]. destruct dir; cbn; auto.
    - unfold run. now rewrite (handleSwipe_signed_out merge p dir w Hs). }
  destruct g as [p d|key|].
  - destruct (perform_cases merge (Release p d) w) as [H|(q & dir & H)];
      [discriminate| |]; unfold run; rewrite H; [exact Hnone|apply Hswipe].
  - destruct (perform_cases merge (KeyDown key) w) as [H|(q & dir & H)];
      [discriminate| |]; unfold run; rewrite H; [exact Hnone|apply Hswipe].
  - cbn [perform]. destruct (fetchProducts_products merge w) as (_ & Ht & _).
    rewrite Ht. exact Hnone.
Qed.

End LogFacts.

(** X10. On the Swipe page the interaction log only grows: after any series
    of gestures the old log is still there, in order, followed by at most
    one new record per gesture, each with action "left" or "right". *)
Theorem swipe_log_is_append_only merge (gs : list Gesture) (w : World) :
  exists added,
    swipe_interactions (tables (performAll merge gs w)) =
      swipe_interactions (tables w) ++ added /\
    (length added <= length gs)%nat /\
    Forall (fun i => interaction_action i = "left" \/
                     interaction_action i = "right") added.
Proof.
  revert w. induction gs as [|g gs IH]; intros w; cbn [performAll].
  - exists []. rewrite app_nil_r. repeat split; [cbn; lia|constructor].
  - destruct (perform_log merge g w) as (a1 & H1 & L1 & F1).
    destruct (IH (run (perform merge g) w)) as (a2 & H2 & L2 & F2).
    exists (a1 ++ a2). rewrite H2, H1, <- app_assoc. repeat split.
    + rewrite length_app. cbn [length]. lia.
    + apply Forall_app. now split.
Qed.

Section BrowseFacts.

Variable merge : bool.

(** Marking an id takes the products of that id out of the visible list and
    nothing else. *)
Lemma visibleProducts_mark ps (swiped : gset string) p :
  visibleProducts ps ({[ p ]} ∪ swiped) =
  List.filter (fun q => negb (String.eqb (product_id q) p))
              (visibleProducts ps swiped).
Proof.
  unfold visibleProducts. induction ps as [|q ps IH]; [reflexivity|].
  cbn [List.filter].
  destruct (String.eqb (product_id q) p) eqn:E.
  - apply String.eqb_eq in E.
    rewrite (bool_decide_eq_true_2 (product_id q ∈ {[p]} ∪ swiped))
      by (apply elem_of_union_l, elem_of_singleton; exact E).
    cbn [negb]. destruct (bool_decide (product_id q ∈ swiped)); cbn [negb].
    + exact IH.
    + cbn [List.filter]. apply String.eqb_eq in E. rewrite E. exact IH.
  - apply String.eqb_neq in E.
    assert (Hq : bool_decide (product_id q ∈ {[p]} ∪ swiped) =
                 bool_decide (product_id q ∈ swiped)).
    { apply bool_decide_ext. rewrite elem_of_union, elem_of_singleton. tauto. }
    rewrite Hq. destruct (bool_decide (product_id q ∈ swiped)); cbn [negb].
    + exact IH.
    + cbn [List.filter]. apply String.eqb_neq in E. rewrite E. cbn [negb].
      now rewrite IH.
Qed.

(** With product ids all different, an arrow key takes the first card off the
    feed and leaves the others in place. *)
Lemma arrow_key_drops_first key w user :
  session w = Some user ->
  NoDup (map product_id (products w)) ->
  key = "ArrowLeft" \/ key = "ArrowRight" ->
  let w' := run (handleKeyPress merge key) w in
  session w' = Some user /\
  products w' = products w /\
  offered w' = tl (offered w).
Proof.
  intros Hs Hnd Hkey w'. subst w'. unfold run, handleKeyPress, offered.
  destruct (visibleProducts (products w) (swipedProducts w)) as [|x xs] eqn:Hv;
    [cbn; now rewrite Hv|].
  assert (Hrun : exists dir,
            (if String.eqb key "ArrowLeft"
             then handleSwipe merge (product_id x) SwipeLeft w
             else if String.eqb key "ArrowRight"
                  then handleSwipe merge (product_id x) SwipeRight w
                  else (tt, w)) = handleSwipe merge (product_id x) dir w).
  { destruct Hkey as [-> | ->]; [exists SwipeLeft|exists SwipeRight];
      reflexivity. }
  destruct Hrun as [dir ->].
  fold (run (handleSwipe merge (product_id x) dir) w).
  rewrite handleSwipe_session, handleSwipe_products, handleSwipe_swiped, Hs.
  repeat split.
  rewrite visibleProducts_mark, Hv. cbn [List.filter map tl].
  rewrite String.eqb_refl. cbn [negb]. f_equal. apply filter_all.
  intros q Hq. apply negb_true_iff, String.eqb_neq. intros Heq.
  assert (Hsub : sublist (x :: xs) (products w))
    by (rewrite <- Hv; apply filter_sublist).
  pose proof (sublist_map_NoDup product_id _ _ Hsub Hnd) as Hnd'.
  cbn [map] in Hnd'. apply NoDup_cons in Hnd' as [Hx _]. apply Hx.
  rewrite <- Heq. apply list_elem_of_In, in_map, Hq.
Qed.

End BrowseFacts.

(** X11. Signed in and with product ids all different, each ArrowLeft or
    ArrowRight takes exactly the first card off the feed and keeps the order
    of the rest, whatever the requests resolve to: after [n] such key presses
    the feed is the old feed without its first [n] cards, so as many presses
    as there are cards empty it. *)
Theorem arrow_keys_walk_through_the_feed merge (keys : list string)
    (w : World) (user : string) :
  session w = Some user ->
  NoDup (map product_id (products w)) ->
  Forall (fun key => key = "ArrowLeft" \/ key = "ArrowRight") keys ->
  offered (performAll merge (map KeyDown keys) w) =
  drop (length keys) (offered w).
Proof.
  intros Hs Hnd Hkeys. revert w Hs Hnd.
  induction Hkeys as [|key keys Hkey _ IH]; intros w Hs Hnd; [reflexivity|].
  cbn [map performAll length perform].
  destruct (arrow_key_drops_first merge key w user Hs Hnd Hkey)
    as (Hs' & Hp' & Ho').
  rewrite IH; [|exact Hs'|now rewrite Hp'].
  rewrite Ho'. destruct (offered w); [cbn [tl]; now rewrite !drop_nil|reflexivity].
Qed.

Lemma arrow_keys_walk_through_the_feed_witness :
  offered (performAll false (map KeyDown ["ArrowLeft"; "ArrowRight"])
                      (Demo.world [true; false; true])) = [].
Proof.
  refine (arrow_keys_walk_through_the_feed false ["ArrowLeft"; "ArrowRight"]
            (Demo.world [true; false; true]) "ann" eq_refl _ _).
  - apply (bool_decide_unpack _). vm_compute. reflexivity.
  - constructor; [now left|]. constructor; [now right|constructor].
Defined.

Section IsolationFacts.

Variable merge : bool.

Lemma cart_pair_other u p u' p' r :
  u' <> u \/ p' <> p -> cart_pair u p r = true -> cart_pair u' p' r = false.
Proof.
  intros Hne H. apply cart_pair_eq in H as [Hu Hp].
  destruct (cart_pair u' p' r) eqn:E; [|reflexivity].
  apply cart_pair_eq in E as [Hu' Hp']. destruct Hne; congruence.
Qed.

Lemma saved_pair_other u p u' p' r :
  u' <> u \/ p' <> p -> saved_pair u p r = true -> saved_pair u' p' r = false.
Proof.
  intros Hne H. apply saved_pair_eq in H as [Hu Hp].
  destruct (saved_pair u' p' r) eqn:E; [|reflexivity].
  apply saved_pair_eq in E as [Hu' Hp']. destruct Hne; congruence.
Qed.

(** An insert into the cart touches the rows of its own pair only, and no
    saved row. *)
Lemma attempt_insert_cart_other f auth u p q t :
  saved_items (snd (attempt merge f auth (InsertCart u p q) t)) = saved_items t /\
  forall u' p', u' <> u \/ p' <> p ->
    cart_rows_of u' p' (snd (attempt merge f auth (InsertCart u p q) t)) =
    cart_rows_of u' p' t.
Proof.
  unfold attempt. destruct f; [now split|].
  cbn -[owns cart_rows_of]. destruct (owns auth u); [|now split].
  destruct (cart_rows_of u p t); [|now split]. cbn [snd]. split; [reflexivity|].
  intros u' p' Hne. unfold cart_rows_of. cbn [cart_items set_cart].
  rewrite List.filter_app. cbn [List.filter].
  rewrite (cart_pair_other u p u' p' _ Hne (cart_pair_self _ u p q)).
  apply app_nil_r.
Qed.

(** The delete and the insert of a left swipe touch the rows of their own
    pair only, and no cart row. *)
Lemma attempt_delete_saved_other f auth u p t :
  cart_items (snd (attempt merge f auth (DeleteSavedPair u p) t)) = cart_items t /\
  forall u' p', u' <> u \/ p' <> p ->
    saved_rows_of u' p' (snd (attempt merge f auth (DeleteSavedPair u p) t)) =
    saved_rows_of u' p' t.
Proof.
  unfold attempt. destruct f; [now split|].
  cbn -[owns saved_pair]. split; [reflexivity|]. intros u' p' Hne.
  unfold saved_rows_of. cbn -[owns saved_pair].
  induction (saved_items t) as [|r l IH]; [reflexivity|].
  cbn -[owns saved_pair].
  destruct (saved_pair u p r) eqn:E.
  - rewrite (saved_pair_other u p u' p' r Hne E).
    destruct (owns auth (saved_user r)); cbn -[owns saved_pair]; [exact IH|].
    now rewrite (saved_pair_other u p u' p' r Hne E).
  - cbn -[owns saved_pair]. destruct (saved_pair u' p' r); now rewrite IH.
Qed.

Lemma attempt_insert_saved_other f auth u p t :
  cart_items (snd (attempt merge f auth (InsertSaved u p) t)) = cart_items t /\
  forall u' p', u' <> u \/ p' <> p ->
    saved_rows_of u' p' (snd (attempt merge f auth (InsertSaved u p) t)) =
    saved_rows_of u' p' t.
Proof.
  unfold attempt. destruct f; [now split|].
  cbn -[owns saved_rows_of]. destruct (owns auth u); [|now split].
  destruct (saved_rows_of u p t); [|now split]. cbn [snd]. split; [reflexivity|].
  intros u' p' Hne. unfold saved_rows_of. cbn [saved_items set_saved].
  rewrite List.filter_app. cbn [List.filter].
  rewrite (saved_pair_other u p u' p' _ Hne (saved_pair_self _ u p)).
  apply app_nil_r.
Qed.

End IsolationFacts.

(** X12. A right swipe never touches [saved_items] and a left swipe never
    touches [cart_items] (so a product can sit in both); and a swipe on
    (user, product) leaves the cart rows and the saved rows of every other
    pair as they were. *)
Theorem swipe_touches_its_own_pair_only merge (w : World) (user p : string)
    (dir : Direction) :
  session w = Some user ->
  let w' := run (handleSwipe merge p dir) w in
  match dir with
  | SwipeRight => saved_items (tables w') = saved_items (tables w)
  | SwipeLeft => cart_items (tables w') = cart_items (tables w)
  end /\
  (forall u' p', u' <> user \/ p' <> p ->
     cart_rows_of u' p' (tables w') = cart_rows_of u' p' (tables w) /\
     saved_rows_of u' p' (tables w') = saved_rows_of u' p' (tables w)).
Proof.
  intros Hs w'. subst w'. destruct dir.
  - rewrite (handleSwipe_left_tables merge w user p Hs). cbn zeta.
    destruct (attempt_interaction merge (nth 0 (oracle w) false) (Some user)
                user p "left" (tables w)) as [l Ht1].
    set (t1 := snd (attempt merge _ _ (InsertInteraction _ _ _) _)) in *.
    destruct (attempt_delete_saved_other merge (nth 1 (oracle w) false)
                (Some user) user p t1) as [Hc2 Hs2].
    set (t2 := snd (attempt merge _ _ (DeleteSavedPair _ _) t1)) in *.
    destruct (attempt_insert_saved_other merge (nth 2 (oracle w) false)
                (Some user) user p t2) as [Hc3 Hs3].
    assert (Hc : cart_items
                   (snd (attempt merge (nth 2 (oracle w) false) (Some user)
                           (InsertSaved user p) t2)) = cart_items (tables w))
      by (now rewrite Hc3, Hc2, Ht1).
    split; [exact Hc|]. intros u' p' Hne. split.
    + unfold cart_rows_of. now rewrite Hc.
    + rewrite (Hs3 u' p' Hne), (Hs2 u' p' Hne). unfold saved_rows_of.
      now rewrite Ht1.
  - rewrite (handleSwipe_right_tables merge w user p Hs). cbn zeta.
    destruct (attempt_interaction merge (nth 0 (oracle w) false) (Some user)
                user p "right" (tables w)) as [l Ht1].
    set (t1 := snd (attempt merge _ _ (InsertInteraction _ _ _) _)) in *.
    destruct (attempt_select_cart merge (nth 1 (oracle w) false) user p t1)
      as (Hsel & _ & _).
    rewrite Hsel.
    destruct (attempt_insert_cart_other merge (nth 2 (oracle w) false)
                (Some user) user p 1 t1) as [Hv3 Hc3].
    destruct (no_rows _).
    + split; [now rewrite Hv3, Ht1|]. intros u' p' Hne. split.
      * rewrite (Hc3 u' p' Hne). unfold cart_rows_of. now rewrite Ht1.
      * unfold saved_rows_of. now rewrite Hv3, Ht1.
    + split; [now rewrite Ht1|]. intros u' p' Hne.
      unfold cart_rows_of, saved_rows_of. now rewrite Ht1.
Qed.

Lemma swipe_touches_its_own_pair_only_witness :
  cart_items (tables (run (handleSwipe false "shirt" SwipeLeft) (Demo.world [])))
  = [mkCartRow 0 "ann" "shirt" 3].
Proof.
  exact (proj1 (swipe_touches_its_own_pair_only false (Demo.world []) "ann"
                  "shirt" SwipeLeft eq_refl)).
Defined.

(* ===================================================================== *)
(** ** More on the saved items and on checkout *)
(* ===================================================================== *)

Section RemoveFacts.

Variable merge : bool.

Lemma attempt_select_saved_response f auth t :
  fst (attempt merge f auth SelectSaved t) =
  if f then rejected
  else mkResponse
         (SavedRows (rev (List.filter (fun r => owns auth (saved_user r))
                                      (saved_items t)))) false.
Proof. unfold attempt. destruct f; reflexivity. Qed.

(** What [fetchSavedItems] leaves: the tables as they were; the list as it
    was when the query fails, the user's own rows, newest first, when it goes
    through. *)
Lemma fetchSavedItems_spec w :
  tables (run (fetchSavedItems merge) w) = tables w /\
  session (run (fetchSavedItems merge) w) = session w /\
  savedItems (run (fetchSavedItems merge) w) =
    (if hd false (oracle w) then savedItems w
     else rev (List.filter (fun r => owns (session w) (saved_user r))
                           (saved_items (tables w)))).
Proof.
  run_handler. open_outcome.
  rewrite (attempt_select_saved merge), (attempt_select_saved_response).
  destruct (hd false (oracle w)); cbn -[attempt owns]; [repeat split|].
  destruct (rev (List.filter (fun r => owns (session w) (saved_user r))
                             (saved_items (tables w)))) as [|r rows];
    cbn -[attempt owns]; [repeat split|].
  rewrite attempt_select_products_in. repeat split.
Qed.

(** The tables and the page list after [handleRemove]. *)
Lemma handleRemove_spec sid w :
  let w' := run (handleRemove merge sid) w in
  tables w' = snd (attempt merge (hd false (oracle w)) (session w)
                     (DeleteSavedById sid) (tables w)) /\
  session w' = session w /\
  (hd false (oracle w) = true -> savedItems w' = savedItems w) /\
  (hd false (oracle w) = false -> nth 1 (oracle w) false = false ->
     savedItems w' =
     rev (List.filter (fun r => owns (session w) (saved_user r))
                      (saved_items (tables w')))).
Proof.
  cbn zeta. unfold handleRemove. rewrite run_bind.
  set (w1 := snd (request merge (DeleteSavedById sid) w)).
  assert (H1 : tables w1 = snd (attempt merge (hd false (oracle w)) (session w)
                                  (DeleteSavedById sid) (tables w)) /\
               session w1 = session w /\ savedItems w1 = savedItems w /\
               oracle w1 = tl (oracle w)) by (repeat split).
  destruct H1 as (Ht1 & Hs1 & Hv1 & Ho1).
  assert (He : error (fst (request merge (DeleteSavedById sid) w)) =
               hd false (oracle w)).
  { cbn. unfold outcome, attempt. destruct (hd false (oracle w)); reflexivity. }
  rewrite He. destruct (hd false (oracle w)) eqn:Hf.
  - cbn -[attempt]. unfold outcome. rewrite Hf.
    repeat split; intros; congruence.
  - rewrite run_bind.
    set (w2 := snd (toast "Item removed" w1)).
    assert (H2 : tables w2 = tables w1 /\ session w2 = session w1 /\
                 savedItems w2 = savedItems w1 /\ oracle w2 = oracle w1)
      by (repeat split).
    destruct H2 as (Ht2 & Hs2 & Hv2 & Ho2).
    destruct (fetchSavedItems_spec w2) as (Ht3 & Hs3 & Hv3).
    rewrite Ht3, Hs3, Hv3, Ht2, Hs2, Ho2, Ho1, Ht1, Hs1.
    repeat split; [congruence|]. intros _ Hok.
    replace (hd false (tl (oracle w))) with (nth 1 (oracle w) false)
      by (destruct (oracle w) as [|? [|? ?]]; reflexivity).
    now rewrite Hok.
Qed.

End RemoveFacts.

(** X13. [handleRemove] has no session guard and its delete names the row id
    only, yet it removes nothing but the signed-in user's own row of that id:
    every other saved row stays in place and in order, the cart is not
    touched, and a failed request changes no table and leaves the page list
    as it was.  When the delete goes through no own row of that id is
    left. *)
Theorem handleRemove_removes_only_the_own_row merge (sid : nat) (w : World) :
  let w' := run (handleRemove merge sid) w in
  sublist (saved_items (tables w')) (saved_items (tables w)) /\
  (forall r, In r (saved_items (tables w)) ->
     saved_row_id r <> sid \/ owns (session w) (saved_user r) = false ->
     In r (saved_items (tables w'))) /\
  cart_items (tables w') = cart_items (tables w) /\
  (hd false (oracle w) = true ->
     tables w' = tables w /\ savedItems w' = savedItems w) /\
  (hd false (oracle w) = false ->
     forall r, In r (saved_items (tables w')) ->
       saved_row_id r = sid -> owns (session w) (saved_user r) = false).
Proof.
  intros w'. destruct (handleRemove_spec merge sid w) as (Ht & _ & Hfail & _).
  fold w' in Ht, Hfail. rewrite Ht. unfold attempt.
  destruct (hd false (oracle w)) eqn:Hf; cbn -[owns].
  - repeat split; try reflexivity; try discriminate; auto.
  - repeat split; try discriminate.
    + apply filter_sublist.
    + intros r Hin Hr. apply filter_In. split; [exact Hin|].
      apply negb_true_iff, andb_false_iff.
      destruct Hr as [Hr|Hr]; [left; now apply Nat.eqb_neq|now right].
    + intros _ r Hin Hid. apply filter_In in Hin as [_ Hin].
      apply negb_true_iff, andb_false_iff in Hin as [Hin|Hin]; [|exact Hin].
      apply Nat.eqb_neq in Hin. congruence.
Qed.

Lemma handleRemove_removes_only_the_own_row_witness :
  In (mkSavedRow 1 "ann" "mug")
     (saved_items
        (tables (run (handleRemove false 1)
                     (mkWorld Demo.store (Some "bob") [] ∅ [] [] [] [])))).
Proof.
  refine (proj1 (proj2 (handleRemove_removes_only_the_own_row false 1
            (mkWorld Demo.store (Some "bob") [] ∅ [] [] [] [])))
            (mkSavedRow 1 "ann" "mug") _ _).
  - left. reflexivity.
  - right. reflexivity.
Defined.

(** X14. The list [fetchSavedItems] builds has one entry per saved row, in
    the rows' order, with the row's id; the product shown for a row always
    carries the row's product id, and it is either one of the fetched
    products or the stand-in named "Unknown" with price 0, so a saved row
    whose product was not fetched is listed all the same. *)
Theorem saved_rows_are_all_listed (rows : list SavedRow)
    (fetched : option (list Product)) :
  let items := SavedView.itemsWithProducts rows fetched in
  map SavedView.item_id items = map saved_row_id rows /\
  map (fun item => product_id (SavedView.item_product item)) items =
    map saved_product rows /\
  Forall (fun item =>
            (exists ps, fetched = Some ps /\ In (SavedView.item_product item) ps)
            \/ SavedView.item_product item =
               mkProduct (product_id (SavedView.item_product item)) ""
                         "Unknown" 0)
         items.
Proof.
  cbn zeta. unfold SavedView.itemsWithProducts.
  induction rows as [|r rows (IH1 & IH2 & IH3)]; cbn [map].
  - repeat split. constructor.
  - rewrite IH1, IH2. cbn [SavedView.item_id SavedView.item_product].
    assert (Hr :
      let shown :=
        match fetched with
        | Some ps =>
            match List.find
                    (fun p => String.eqb (product_id p) (saved_product r)) ps with
            | Some p => p
            | None => SavedView.unknownProduct (saved_product r)
            end
        | None => SavedView.unknownProduct (saved_product r)
        end in
      product_id shown = saved_product r /\
      ((exists ps, fetched = Some ps /\ In shown ps) \/
       shown = mkProduct (product_id shown) "" "Unknown" 0)).
    { cbn zeta. destruct fetched as [ps|]; [|split; [reflexivity|now right]].
      destruct (List.find _ ps) as [p|] eqn:E;
        [|split; [reflexivity|now right]].
      apply find_some in E as [Hin Hid]. apply String.eqb_eq in Hid.
      split; [exact Hid|left; eauto]. }
    destruct Hr as [Hid Hshown]. rewrite Hid. repeat split.
    constructor; [exact Hshown|exact IH3].
Qed.

Section MoveFacts.

Variable merge : bool.

(** An upsert of a cart row that reaches the store resolves to an error
    exactly when the pair has a row and clashes are reported. *)
Lemma attempt_upsert_cart_error user p q t :
  error (fst (attempt merge false (Some user) (UpsertCart user p q) t)) =
  match cart_rows_of user p t with
  | [] => false
  | _ :: _ => negb merge
  end.
Proof.
  unfold attempt. cbn -[owns cart_rows_of]. rewrite owns_self.
  destruct (cart_rows_of user p t); [reflexivity|]. now destruct merge.
Qed.

(** Under UNIQUE(user_id, product_id) a saved row is the only row of its
    pair. *)
Lemma saved_row_alone r t :
  In r (saved_items t) ->
  saved_unique t ->
  saved_rows_of (saved_user r) (saved_product r) t = [r].
Proof.
  intros Hin Hu. specialize (Hu (saved_user r) (saved_product r)).
  assert (Hr : In r (saved_rows_of (saved_user r) (saved_product r) t)).
  { apply filter_In. split; [exact Hin|]. apply saved_pair_eq. now split. }
  destruct (saved_rows_of (saved_user r) (saved_product r) t) as [|x [|y l]];
    cbn in *; [easy| |lia].
  destruct Hr as [->|[]]. reflexivity.
Qed.

(** The world after a move to the cart whose upsert went through is the
    world [handleRemove] leaves, plus a toast. *)
Lemma handleMoveToCart_done w user p sid :
  session w = Some user ->
  error (fst (request merge (UpsertCart user p 1) w)) = false ->
  let w1 := snd (request merge (UpsertCart user p 1) w) in
  tables (run (handleMoveToCart merge p sid) w) =
    tables (run (handleRemove merge sid) w1) /\
  savedItems (run (handleMoveToCart merge p sid) w) =
    savedItems (run (handleRemove merge sid) w1).
Proof.
  intros Hs He. cbn zeta. unfold handleMoveToCart.
  rewrite run_bind. cbn [getSession fst snd]. rewrite Hs.
  rewrite run_bind, He, run_bind. split; reflexivity.
Qed.

End MoveFacts.

(** X15. Signed in, under the uniqueness constraints, "Add to Cart" on a
    saved row of the user whose three requests (upsert, delete, re-fetch) go
    through, the product not being in the cart yet or the upsert updating
    the row that is: the row is gone from [saved_items], the pair has one
    cart row, and the page list is re-fetched, showing the user's remaining
    saved rows, newest first, without the moved one. *)
Theorem move_to_cart_refreshes_the_list merge (w : World) (user : string)
    (r : SavedRow) :
  session w = Some user ->
  In r (saved_items (tables w)) ->
  saved_user r = user ->
  saved_unique (tables w) ->
  cart_unique (tables w) ->
  nth 0 (oracle w) false = false ->
  nth 1 (oracle w) false = false ->
  nth 2 (oracle w) false = false ->
  merge = true \/ cart_rows_of user (saved_product r) (tables w) = [] ->
  let w' := run (handleMoveToCart merge (saved_product r) (saved_row_id r)) w in
  ~ In r (saved_items (tables w')) /\
  length (cart_rows_of user (saved_product r) (tables w')) = 1%nat /\
  savedItems w' =
    rev (List.filter (fun x => String.eqb user (saved_user x))
                     (saved_items (tables w'))) /\
  ~ In r (savedItems w').
Proof.
  intros Hs Hin Hown Hsu Hcu H0 H1 H2 Hfree w'.
  assert (Hhd : hd false (oracle w) = false)
    by (destruct (oracle w); [reflexivity|exact H0]).
  set (p := saved_product r) in *. set (sid := saved_row_id r) in *.
  assert (He : error (fst (request merge (UpsertCart user p 1) w)) = false).
  { cbn [request fst]. unfold outcome. rewrite Hhd, Hs.
    rewrite attempt_upsert_cart_error.
    destruct (cart_rows_of user p (tables w)) eqn:E; [reflexivity|].
    destruct Hfree as [->|Hfree]; [reflexivity|discriminate]. }
  destruct (handleMoveToCart_done merge w user p sid Hs He) as [Ht Hv].
  fold w' in Ht, Hv.
  set (w1 := snd (request merge (UpsertCart user p 1) w)) in *.
  assert (Hw1 : tables w1 = snd (attempt merge false (Some user)
                                   (UpsertCart user p 1) (tables w)) /\
                session w1 = Some user /\ oracle w1 = tl (oracle w)).
  { subst w1. cbn [request snd tables session oracle]. unfold outcome.
    now rewrite Hhd, Hs. }
  destruct Hw1 as (Ht1 & Hs1 & Ho1).
  assert (He' : error (fst (attempt merge false (Some user)
                              (UpsertCart user p 1) (tables w))) = false).
  { cbn [request fst] in He. unfold outcome in He. now rewrite Hhd, Hs in He. }
  destruct (attempt_upsert_cart_done merge false user p 1 (tables w) He'
              (Hcu user p)) as [Hone Hkeep].
  rewrite <- Ht1 in Hone, Hkeep.
  destruct (handleRemove_spec merge sid w1) as (Htr & _ & _ & Hlist).
  assert (Hhd1 : hd false (oracle w1) = false)
    by (rewrite Ho1; destruct (oracle w) as [|? [|? ?]]; auto).
  assert (Hn1 : nth 1 (oracle w1) false = false)
    by (rewrite Ho1; destruct (oracle w) as [|? [|? [|? ?]]]; auto).
  specialize (Hlist Hhd1 Hn1). rewrite Hhd1, Hs1 in Htr. rewrite Hs1 in Hlist.
  rewrite <- Ht in Htr, Hlist. rewrite <- Hv in Hlist.
  assert (Hrow : saved_rows_of user p (tables w1) = [mkSavedRow sid user p]).
  { unfold saved_rows_of. rewrite Hkeep.
    pose proof (saved_row_alone r (tables w) Hin Hsu) as Hr.
    rewrite Hown in Hr. fold p in Hr. unfold saved_rows_of in Hr. rewrite Hr.
    subst p sid. rewrite <- Hown. now destruct r. }
  destruct (attempt_delete_saved_by_id merge user p sid (tables w1) Hrow)
    as [Hnone Hcart].
  rewrite <- Htr in Hnone, Hcart.
  assert (Hgone : ~ In r (saved_items (tables w'))).
  { intros Hr.
    assert (Hr' : In r (saved_rows_of user p (tables w'))).
    { apply filter_In. split; [exact Hr|]. apply saved_pair_eq. now split. }
    now rewrite Hnone in Hr'. }
  repeat split.
  - exact Hgone.
  - unfold cart_rows_of in *. now rewrite Hcart.
  - exact Hlist.
  - rewrite Hlist, <- in_rev. intros Hr. apply filter_In in Hr as [Hr _].
    now apply Hgone.
Qed.

Lemma move_to_cart_refreshes_the_list_witness :
  savedItems (run (handleMoveToCart false "mug" 1) (Demo.world [])) = [].
Proof.
  refine (proj1 (proj2 (proj2 (move_to_cart_refreshes_the_list false
            (Demo.world []) "ann" (mkSavedRow 1 "ann" "mug") eq_refl _ eq_refl
            _ _ eq_refl eq_refl eq_refl _)))).
  - left. reflexivity.
  - intros u p. unfold saved_rows_of. cbn [saved_items Demo.world Demo.store tables].
    cbn [List.filter]. destruct (saved_pair u p _); cbn; lia.
  - intros u p. unfold cart_rows_of. cbn [cart_items Demo.world Demo.store tables].
    cbn [List.filter]. destruct (cart_pair u p _); cbn; lia.
  - right. reflexivity.
Defined.

(** X16. When the store reports a clash instead of updating the row, "Add to
    Cart" on a saved product that is already in the user's cart always ends
    in "Error adding to cart": no table changes, the saved row stays and the
    page list is not re-fetched. *)
Theorem move_to_cart_of_a_product_in_the_cart_fails (w : World)
    (user p : string) (sid : nat) :
  session w = Some user ->
  cart_rows_of user p (tables w) <> [] ->
  let w' := run (handleMoveToCart false p sid) w in
  tables w' = tables w /\
  savedItems w' = savedItems w /\
  events w' =
    events w ++ [Requested (UpsertCart user p 1); Toast "Error adding to cart"].
Proof.
  intros Hs Hex w'. subst w'. unfold handleMoveToCart.
  rewrite run_bind. cbn [getSession fst snd]. rewrite Hs. rewrite run_bind.
  assert (He : error (fst (request false (UpsertCart user p 1) w)) = true /\
               tables (snd (request false (UpsertCart user p 1) w)) = tables w).
  { cbn [request fst snd tables]. unfold outcome, attempt. rewrite Hs.
    destruct (hd false (oracle w)); [now split|].
    cbn -[owns cart_rows_of]. rewrite owns_self.
    destruct (cart_rows_of user p (tables w)); [congruence|now split]. }
  destruct He as [He Ht]. rewrite He. cbn -[request].
  rewrite Ht. repeat split. cbn. now rewrite <- app_assoc.
Qed.

Lemma move_to_cart_of_a_product_in_the_cart_fails_witness :
  tables (run (handleMoveToCart false "shirt" 1) (Demo.world [])) = Demo.store.
Proof.
  refine (proj1 (move_to_cart_of_a_product_in_the_cart_fails (Demo.world [])
                   "ann" "shirt" 1 eq_refl _)).
  vm_compute. discriminate.
Defined.

Section CheckoutMore.

Variable merge : bool.

(** The loop that records the purchases writes to the log only. *)
Lemma recordPurchases_frame user items :
  forall w, exists l,
    tables (run (recordPurchases merge user items) w) =
    mkTables (products_table (tables w)) (cart_items (tables w))
             (saved_items (tables w)) l (next_id (tables w)).
Proof.
  induction items as [|item rest IH]; intros w.
  - exists (swipe_interactions (tables w)). cbn. now destruct (tables w).
  - cbn [recordPurchases]. rewrite run_bind, run_bind.
    set (r := InsertInteraction user (line_product item) "purchased").
    set (w2 := snd ((if error (fst (request merge r w))
                     then warn "purchase insert failed" else ret tt)
                      (snd (request merge r w)))).
    assert (Ht2 : tables w2 = snd (outcome merge r w))
      by (subst w2; destruct (error _); reflexivity).
    destruct (IH w2) as [l Hl]. rewrite Hl, Ht2. unfold outcome.
    destruct (attempt_interaction merge (hd false (oracle w)) (session w)
                user (line_product item) "purchased" (tables w)) as [l1 H1].
    subst r. rewrite H1. cbn. eauto.
Qed.

(** The tables after checkout: those the loop leaves, then the delete of the
    user's cart rows. *)
Lemma checkout_tables w user :
  session w = Some user ->
  cartItems w <> [] ->
  exists f l,
    tables (run (checkout merge) w) =
    snd (attempt merge f (Some user) (DeleteCartOfUser user)
           (mkTables (products_table (tables w)) (cart_items (tables w))
                     (saved_items (tables w)) l (next_id (tables w)))) /\
    f = nth (length (cartItems w)) (oracle w) false /\
    l = swipe_interactions (tables w) ++
        purchasesRecorded user (cartItems w) (oracle w).
Proof.
  intros Hs Hne. unfold run, checkout. rewrite Hs.
  destruct (cartItems w) as [|item rest] eqn:Hitems; [congruence|].
  fold (run (recordPurchases merge user (item :: rest) ;;;
             clear <- request merge (DeleteCartOfUser user) ;;
             (if error clear then warn "clear cart failed" else ret tt) ;;;
             toast "Checkout complete! 🎉" ;;; setCartItems [] ;;;
             navigate "/swipe") w).
  rewrite run_bind.
  destruct (recordPurchases_spec merge user (item :: rest) w Hs)
    as (Is & _ & Io & _ & Il & _).
  destruct (recordPurchases_frame user (item :: rest) w) as [l Hl].
  set (w1 := snd (recordPurchases merge user (item :: rest) w)) in *.
  fold (run (recordPurchases merge user (item :: rest)) w) in w1.
  assert (Ht : tables
                 (run (clear <- request merge (DeleteCartOfUser user) ;;
                       (if error clear then warn "clear cart failed"
                        else ret tt) ;;;
                       toast "Checkout complete! 🎉" ;;; setCartItems [] ;;;
                       navigate "/swipe") w1) =
               snd (outcome merge (DeleteCartOfUser user) w1)).
  { run_handler. split_ifs; reflexivity. }
  rewrite Ht. unfold outcome. fold w1 in Is, Io, Il, Hl.
  rewrite Is, Io, Hs, hd_drop, Hl.
  exists (nth (length (item :: rest)) (oracle w) false), l.
  repeat split. rewrite Hl in Il. exact Il.
Qed.

Lemma purchasesRecorded_products user items o i :
  In i (purchasesRecorded user items o) ->
  In (interaction_product i) (map line_product items) /\
  interaction_action i = "purchased".
Proof.
  revert o. induction items as [|item rest IH]; intros o; [easy|].
  cbn [purchasesRecorded map]. rewrite in_app_iff. intros [H|H].
  - destruct (hd false o); [easy|]. destruct H as [<-|[]]. split; [now left|].
    reflexivity.
  - destruct (IH _ H) as [Hp Ha]. split; [now right|exact Ha].
Qed.

End CheckoutMore.

(** X17. Checkout never adds a cart row and leaves the cart rows of every
    other user, the saved items and the products as they were. *)
Theorem checkout_touches_the_own_cart_only merge (w : World) (user : string) :
  session w = Some user ->
  cartItems w <> [] ->
  let w' := run (checkout merge) w in
  sublist (cart_items (tables w')) (cart_items (tables w)) /\
  List.filter (fun r => negb (String.eqb (cart_user r) user))
              (cart_items (tables w')) =
  List.filter (fun r => negb (String.eqb (cart_user r) user))
              (cart_items (tables w)) /\
  saved_items (tables w') = saved_items (tables w) /\
  products_table (tables w') = products_table (tables w).
Proof.
  intros Hs Hne w'. subst w'.
  destruct (checkout_tables merge w user Hs Hne) as (f & l & -> & _ & _).
  unfold attempt. destruct f; cbn -[owns].
  - repeat split. reflexivity.
  - repeat split; [apply filter_sublist|].
    induction (cart_items (tables w)) as [|r rows IH]; [reflexivity|].
    cbn -[owns]. destruct (String.eqb (cart_user r) user) eqn:E.
    + apply String.eqb_eq in E. rewrite E, owns_self. cbn [andb negb].
      exact IH.
    + cbn [andb negb List.filter]. rewrite E. cbn [negb]. now rewrite IH.
Qed.

Lemma checkout_touches_the_own_cart_only_witness :
  List.filter (fun r => negb (String.eqb (cart_user r) "bob"))
    (cart_items (tables (run (checkout false) (Demo.checkout_world []))))
  = [mkCartRow 0 "ann" "shirt" 3].
Proof.
  refine (proj1 (proj2 (checkout_touches_the_own_cart_only false
            (Demo.checkout_world []) "bob" eq_refl _))).
  discriminate.
Defined.

(** X18. Checkout records purchases for the lines the page lists and deletes
    the cart rows the store holds: a cart row of the user whose product is
    not among the listed lines is deleted (once the delete is carried out)
    although no purchase of its product is added to the log. *)
Theorem checkout_deletes_rows_it_did_not_record merge (w : World)
    (user : string) (row : CartRow) :
  session w = Some user ->
  cartItems w <> [] ->
  In row (cart_items (tables w)) ->
  cart_user row = user ->
  ~ In (cart_product row) (map line_product (cartItems w)) ->
  nth (length (cartItems w)) (oracle w) false = false ->
  let w' := run (checkout merge) w in
  ~ In row (cart_items (tables w')) /\
  exists added,
    swipe_interactions (tables w') = swipe_interactions (tables w) ++ added /\
    forall i, In i added -> interaction_product i <> cart_product row.
Proof.
  intros Hs Hne Hin Hown Hstale Hok w'. subst w'.
  destruct (checkout_tables merge w user Hs Hne) as (f & l & -> & -> & ->).
  rewrite Hok. unfold attempt. cbn -[owns]. split.
  - intros Hr. apply filter_In in Hr as [_ Hr].
    rewrite Hown, String.eqb_refl, owns_self in Hr. discriminate.
  - eexists. split; [reflexivity|]. intros i Hi Heq.
    apply purchasesRecorded_products in Hi as [Hi _]. apply Hstale.
    now rewrite <- Heq.
Qed.

Lemma checkout_deletes_rows_it_did_not_record_witness :
  ~ In (mkCartRow 2 "bob" "mug" 2)
       (cart_items
          (tables
             (run (checkout false)
                  (mkWorld (tables (Demo.checkout_world [])) (Some "bob") [] ∅
                           [mkCartItem 1 1 "shirt"] [] [] [])))).
Proof.
  refine (proj1 (checkout_deletes_rows_it_did_not_record false
            (mkWorld (tables (Demo.checkout_world [])) (Some "bob") [] ∅
                     [mkCartItem 1 1 "shirt"] [] [] [])
            "bob" (mkCartRow 2 "bob" "mug" 2) eq_refl _ _ eq_refl _ eq_refl)).
  - discriminate.
  - right. right. left. reflexivity.
  - intros [H|[]]. discriminate H.
Defined.

(** X19. In the earlier, upsert-based [handleSwipe] too a swipe on a pair
    that already has its row adds none: after a right swipe the pair has as
    many cart rows as before, [cart_items] being untouched when the store
    reports the clash as an error, and after a left swipe [saved_items] is
    as it was. *)
Theorem upsert_swipe_on_existing_pair_adds_no_row merge (w : World)
    (user p : string) :
  session w = Some user ->
  (cart_rows_of user p (tables w) <> [] ->
     length (cart_rows_of user p
               (tables (run (handleSwipe_upsert merge p SwipeRight) w))) =
     length (cart_rows_of user p (tables w)) /\
     (merge = false ->
      cart_items (tables (run (handleSwipe_upsert merge p SwipeRight) w)) =
      cart_items (tables w))) /\
  (saved_rows_of user p (tables w) <> [] ->
     saved_items (tables (run (handleSwipe_upsert merge p SwipeLeft) w)) =
     saved_items (tables w)).
Proof.
  intros Hs. split.
  - intros Hex. exact (upsert_right_swipe_adds_no_row merge w user p Hs Hex).
  - intros Hex. exact (upsert_left_swipe_keeps_row merge w user p Hs Hex).
Qed.

Lemma upsert_swipe_on_existing_pair_adds_no_row_witness :
  cart_items (tables (run (handleSwipe_upsert false "shirt" SwipeRight)
                          (Demo.world [])))
  = [mkCartRow 0 "ann" "shirt" 3].
Proof.
  refine (proj2 (proj1 (upsert_swipe_on_existing_pair_adds_no_row false
            (Demo.world []) "ann" "shirt" eq_refl) _) eq_refl).
  vm_compute. discriminate.
Defined.
